(** * Portfolio optimizer: Monte Carlo sampling and maximum-Sharpe search

    A shallow embedding of [monte-carlo-code.py] (class [PortfolioOptimizer]):
    [fetch_data], [generate_portfolio], [calculate_portfolio_metrics],
    [run_monte_carlo] and [optimize_portfolio], followed by the properties
    the specification states about them.

    The program computes with numpy [float64] values.  Its methods are
    written once, over an interface [Float64] of the operations they use,
    and read in two number systems:
    - [binary64], the IEEE 754 doubles of the kernel: what the program
      really computes, and what evaluates here;
    - [xreal], the reals extended with the two infinities and NaN: doubles
      without rounding and without overflow, the sign of zero forgotten.
      Identities of exact arithmetic are stated in it.
    The objects the methods share (the instance [self], numpy's global
    random generator) are threaded through a state-and-exception monad. *)

From Stdlib Require Import Floats ZArith String List Bool.
From Stdlib Require Import Reals Lra Lia.
From Stdlib Require Import FunctionalExtensionality.
Import ListNotations.
Set Warnings "-inexact-float".

(** ** Exceptions and dictionaries of Python *)

Module Py.

(** The exceptions the modelled statements can raise. *)
Inductive exn : Type :=
| TypeError
| ValueError
| ZeroDivisionError.

Inductive result (A : Type) : Type :=
| Ok (a : A)
| Raise (e : exn).
Arguments Ok {A} a.
Arguments Raise {A} e.

Definition is_ok {A : Type} (r : result A) : bool :=
  match r with Ok _ => true | Raise _ => false end.

(** A [dict] with string keys: keys stay in insertion order, and storing
    under a key already present replaces the value where the key sits. *)
Definition dict (V : Type) : Type := list (string * V).

Fixpoint setitem {V : Type} (d : dict V) (k : string) (v : V) : dict V :=
  match d with
  | [] => [(k, v)]
  | (k', v') :: d' =>
      if String.eqb k' k then (k', v) :: d' else (k', v') :: setitem d' k v
  end.

(** [dict(pairs)]: the pairs are stored one after the other. *)
Definition dict_of {V : Type} (pairs : list (string * V)) : dict V :=
  fold_left (fun d kv => setitem d (fst kv) (snd kv)) pairs [].

(** [zip(a, b)] stops at the shorter argument, as [combine] does. *)
Definition zip {A B : Type} (a : list A) (b : list B) : list (A * B) :=
  combine a b.

Definition keys {V : Type} (d : dict V) : list string := map fst d.
Definition values {V : Type} (d : dict V) : list V := map snd d.

End Py.
Import Py.

(** ** The arithmetic of [float64] *)

Class Float64 (F : Type) : Type := {
  of_int : Z -> F;            (* an [int] operand promoted to float64 *)
  fadd : F -> F -> F;
  fsub : F -> F -> F;
  fmul : F -> F -> F;
  fdiv : F -> F -> F;         (* true division; never raises on float64 *)
  fneg : F -> F;
  fsqrt : F -> F;
  fnan : F;
  isnan : F -> bool
}.

(** *** IEEE 754 doubles *)

Definition b64_of_int (z : Z) : float :=
  match z with
  | Z0 => PrimFloat.zero
  | Zpos _ => PrimFloat.of_uint63 (Uint63.of_Z z)
  | Zneg _ => PrimFloat.opp (PrimFloat.of_uint63 (Uint63.of_Z (Z.opp z)))
  end.

#[export] Instance binary64 : Float64 float := {|
  of_int := b64_of_int;
  fadd := PrimFloat.add;
  fsub := PrimFloat.sub;
  fmul := PrimFloat.mul;
  fdiv := PrimFloat.div;
  fneg := PrimFloat.opp;
  fsqrt := PrimFloat.sqrt;
  fnan := PrimFloat.nan;
  isnan := PrimFloat.is_nan
|}.

(** *** Extended reals *)

Inductive xreal : Type :=
| Fin (r : R)
| PInf
| NInf
| NaN.

Definition xneg (a : xreal) : xreal :=
  match a with
  | Fin x => Fin (- x)
  | PInf => NInf
  | NInf => PInf
  | NaN => NaN
  end.

Definition xadd (a b : xreal) : xreal :=
  match a, b with
  | NaN, _ | _, NaN => NaN
  | Fin x, Fin y => Fin (x + y)
  | PInf, NInf | NInf, PInf => NaN
  | PInf, _ | _, PInf => PInf
  | NInf, _ | _, NInf => NInf
  end.

Definition xsub (a b : xreal) : xreal := xadd a (xneg b).

(** An infinity of sign [s] ([true] for [+]) scaled by the finite [y]. *)
Definition xinf_scaled (s : bool) (y : R) : xreal :=
  if Req_dec_T y 0 then NaN
  else if Rlt_dec 0 y then (if s then PInf else NInf)
  else (if s then NInf else PInf).

Definition xmul (a b : xreal) : xreal :=
  match a, b with
  | NaN, _ | _, NaN => NaN
  | Fin x, Fin y => Fin (x * y)
  | PInf, Fin y | Fin y, PInf => xinf_scaled true y
  | NInf, Fin y | Fin y, NInf => xinf_scaled false y
  | PInf, PInf | NInf, NInf => PInf
  | PInf, NInf | NInf, PInf => NInf
  end.

(** Division by zero raises nothing on float64: [x / 0] is an infinity of
    the sign of [x], and [0 / 0] is NaN. *)
Definition xdiv (a b : xreal) : xreal :=
  match a, b with
  | NaN, _ | _, NaN => NaN
  | Fin x, Fin y =>
      if Req_dec_T y 0 then
        if Req_dec_T x 0 then NaN
        else if Rlt_dec 0 x then PInf else NInf
      else Fin (x / y)
  | Fin _, (PInf | NInf) => Fin 0
  | PInf, Fin y => if Rlt_dec y 0 then NInf else PInf
  | NInf, Fin y => if Rlt_dec y 0 then PInf else NInf
  | (PInf | NInf), (PInf | NInf) => NaN
  end.

Definition xsqrt (a : xreal) : xreal :=
  match a with
  | Fin x => if Rlt_dec x 0 then NaN else Fin (R_sqrt.sqrt x)
  | PInf => PInf
  | NInf | NaN => NaN
  end.

Definition xisnan (a : xreal) : bool :=
  match a with NaN => true | _ => false end.

#[export] Instance exact64 : Float64 xreal := {|
  of_int := fun z => Fin (IZR z);
  fadd := xadd;
  fsub := xsub;
  fmul := xmul;
  fdiv := xdiv;
  fneg := xneg;
  fsqrt := xsqrt;
  fnan := NaN;
  isnan := xisnan
|}.

(** ** [scipy.optimize.minimize] as the program sees it *)

Module Scipy.
Section Interface.
Context {F : Type}.

(** The ['type'] entry of a constraint dictionary. *)
Inductive constraint_type : Type := eq | ineq.

(** A constraint dictionary [{'type': t, 'fun': f}]; type ['eq'] asks
    for [f(x) == 0]. *)
Record Constraint : Type := {
  type : constraint_type;
  fun_ : list F -> F
}.

(** The arguments of one call [minimize(fun, x0, method=..., bounds=...,
    constraints=...)].  The objective is a Python callable and may raise. *)
Record Problem : Type := {
  objective : list F -> result F;
  x0 : list F;
  method : string;
  bounds : list (F * F);
  constraints : list Constraint
}.

(** The fields of [OptimizeResult] that matter here: the final iterate,
    whether the solver converged, and its exit status. *)
Record OptimizeResult : Type := {
  x : list F;
  success : bool;
  status : Z
}.

(** The solver is not part of the program: any function of the problem
    posed, which returns an [OptimizeResult] or raises. *)
Definition Solver : Type := Problem -> result OptimizeResult.

End Interface.
Arguments Constraint : clear implicits.
Arguments Problem : clear implicits.
Arguments OptimizeResult : clear implicits.
Arguments Solver : clear implicits.
End Scipy.

(** ** The program *)

Section Program.
Context {F : Type} `{Float64 F}.

Local Infix "+." := fadd (at level 50, left associativity).
Local Infix "-." := fsub (at level 50, left associativity).
Local Infix "*." := fmul (at level 40, left associativity).
Local Infix "/." := fdiv (at level 40, left associativity).

(** *** numpy operations *)

(** [np.sum(a)] of a one-dimensional array. *)
Definition np_sum (a : list F) : F := fold_left fadd a (of_int 0).

(** [np.sum(s)] of a pandas Series is [s.sum()], which skips the NaN
    entries of [s]. *)
Definition series_sum (s : list F) : F :=
  np_sum (filter (fun v => negb (isnan v)) s).

Definition elementwise_mul (a b : list F) : list F :=
  map (fun p => fst p *. snd p) (zip a b).

Definition same_length (a b : list F) : bool :=
  Nat.eqb (length a) (length b).

(** [a * b] of two one-dimensional operands of [n] and [k] entries.
    Other lengths raise [ValueError], but for an operand of one entry,
    which numpy stretches; the scorer's [np.dot] raises the same
    [ValueError] on it one line below, so the check is made here. *)
Definition array_mul (a b : list F) : result (list F) :=
  if same_length a b then Ok (elementwise_mul a b) else Raise ValueError.

(** [np.dot(a, b)] of two vectors. *)
Definition np_dot (a b : list F) : result F :=
  if same_length a b then Ok (np_sum (elementwise_mul a b))
  else Raise ValueError.

(** [np.dot(m, v)] of a square matrix, given by its rows, and a vector. *)
Definition np_dot_matrix (m : list (list F)) (v : list F)
  : result (list F) :=
  if Nat.eqb (length m) (length v) && forallb (fun row => same_length row v) m
  then Ok (map (fun row => np_sum (elementwise_mul row v)) m)
  else Raise ValueError.

(** [m * k] of a DataFrame and a number. *)
Definition frame_mul (m : list (list F)) (k : F) : list (list F) :=
  map (map (fun c => c *. k)) m.

(** *** The instance and the state of the interpreter *)

(** [__init__] sets [returns_data], [cov_matrix] and [avg_returns] to
    [None], and [fetch_data] assigns the three together: they are kept
    in one optional record.  A DataFrame is the list of its rows. *)
Record ReturnStatistics : Type := {
  returns_data : list (list F);
  cov_matrix : list (list F);
  avg_returns : list F
}.

Record PortfolioOptimizer : Type := {
  tickers : list string;
  portfolio_size : F;
  statistics : option ReturnStatistics
}.

(** [__init__(tickers, portfolio_size)]. *)
Definition init (names : list string) (size : F) : PortfolioOptimizer :=
  {| tickers := names; portfolio_size := size; statistics := None |}.

(** [np_random] is the sequence of doubles numpy's global generator is
    about to produce, each in [[0, 1)]. *)
Record world : Type := {
  self : PortfolioOptimizer;
  np_random : nat -> F
}.

Definition M (A : Type) : Type := world -> result A * world.

Definition ret {A : Type} (a : A) : M A := fun w => (Ok a, w).

Definition bind {A B : Type} (m : M A) (k : A -> M B) : M B :=
  fun w =>
    match m w with
    | (Ok a, w') => k a w'
    | (Raise e, w') => (Raise e, w')
    end.

Definition raise {A : Type} (e : exn) : M A := fun w => (Raise e, w).

Definition lift {A : Type} (r : result A) : M A := fun w => (r, w).

Definition get_self : M PortfolioOptimizer := fun w => (Ok (self w), w).

Definition set_self (s : PortfolioOptimizer) : M unit :=
  fun w => (Ok tt, {| self := s; np_random := np_random w |}).

(** [np.random.random(n)]: the next [n] doubles of the generator. *)
Definition np_random_random (n : nat) : M (list F) :=
  fun w =>
    (Ok (map (np_random w) (seq 0 n)),
     {| self := self w; np_random := fun i => np_random w (i + n)%nat |}).

Notation "x <- m ;; k" := (bind m (fun x => k))
  (at level 61, m at next level, right associativity).
Notation "' p <- m ;; k" := (bind m (fun x => match x with p => k end))
  (at level 61, p pattern, m at next level, right associativity).

(** [self.avg_returns], [self.cov_matrix]: [None] before [fetch_data],
    and arithmetic on [None] raises [TypeError]. *)
Definition get_statistics : M ReturnStatistics :=
  s <- get_self ;;
  match statistics s with
  | Some st => ret st
  | None => raise TypeError
  end.

(** *** [fetch_data] *)

(** A price series [stock.history(...)['Close']]: closing prices under
    their timestamps, which are distinct within one series. *)
Definition Series : Type := list (Z * F).

(** The DataFrame [data] while it is filled: its index and, under each
    label, a column aligned with the index. *)
Record DataFrame : Type := {
  index : list Z;
  columns : dict (list F)
}.

Definition empty_frame : DataFrame := {| index := []; columns := [] |}.

(** The price of the series at timestamp [t]; NaN when it has none. *)
Definition series_at (s : Series) (t : Z) : F :=
  match find (fun p => Z.eqb (fst p) t) s with
  | Some p => snd p
  | None => fnan
  end.

(** [data[key] = value].  A frame whose index is still empty takes the
    index of the first series that has entries (columns stored before
    are refilled with NaN); the series is then aligned with the index of
    the frame and stored under [key]. *)
Definition frame_setitem (data : DataFrame) (key : string) (value : Series)
  : DataFrame :=
  let data :=
    match index data, value with
    | [], _ :: _ =>
        {| index := map fst value;
           columns := map (fun kc => (fst kc, repeat fnan (length value)))
                          (columns data) |}
    | _, _ => data
    end in
  {| index := index data;
     columns := setitem (columns data) key
                  (map (series_at value) (index data)) |}.

(** [ffill]: a missing entry takes the last entry seen before it. *)
Fixpoint ffill_from (last : F) (col : list F) : list F :=
  match col with
  | [] => []
  | v :: col' =>
      let v' := if isnan v then last else v in
      v' :: ffill_from v' col'
  end.

(** [shift(1)]: every entry moves one row down, NaN enters on top. *)
Definition shift_one (col : list F) : list F :=
  firstn (length col) (fnan :: col).

(** [pct_change()] on one column, as pandas 1 and 2 compute it: forward
    fill, then [col / col.shift(1) - 1]. *)
Definition pct_change (col : list F) : list F :=
  let filled := ffill_from fnan col in
  map (fun p => fst p /. snd p -. of_int 1) (zip filled (shift_one filled)).

Definition row_at (cols : list (list F)) (i : nat) : list F :=
  map (fun col => nth i col fnan) cols.

Definition rows_of (nrows : nat) (cols : list (list F)) : list (list F) :=
  map (row_at cols) (seq 0 nrows).

Definition columns_of (ncols : nat) (rows : list (list F))
  : list (list F) :=
  map (fun j => map (fun row => nth j row fnan) rows) (seq 0 ncols).

(** [dropna()]: the rows that hold a NaN go. *)
Definition dropna (rows : list (list F)) : list (list F) :=
  filter (fun row => negb (existsb isnan row)) rows.

(** The mean of a column: its sum over its count ([0/0] when empty). *)
Definition column_mean (col : list F) : F :=
  np_sum col /. of_int (Z.of_nat (length col)).

(** [DataFrame.cov()] of a frame without NaN is [np.cov(mat.T, ddof=1)]:
    the columns are centred, and their products are summed and scaled
    by [1 / fact], where [fact] is the number of rows minus one, and
    [0.0] when that is not positive. *)
Definition np_cov (nrows : nat) (cols : list (list F)) : list (list F) :=
  let fact :=
    if (Z.of_nat nrows - 1 <=? 0)%Z then of_int 0
    else of_int (Z.of_nat nrows - 1) in
  let centred :=
    map (fun col => map (fun v => v -. column_mean col) col) cols in
  map (fun cj =>
         map (fun ck => np_sum (elementwise_mul cj ck) *. (of_int 1 /. fact))
             centred)
      centred.

(** [history ticker start end] stands for
    [yf.Ticker(ticker).history(start=start, end=end)['Close']]; the loop
    of [fetch_data] stores one such series per ticker. *)
Definition download (history : string -> string -> string -> Series)
    (start_date end_date : string) (names : list string) : DataFrame :=
  fold_left
    (fun data ticker =>
       frame_setitem data ticker (history ticker start_date end_date))
    names empty_frame.

(** [data.pct_change().dropna()], as the list of the rows that stay. *)
Definition pct_change_dropna (data : DataFrame) : list (list F) :=
  dropna (rows_of (length (index data))
                  (map pct_change (values (columns data)))).

(** [frame.cov()] and [frame.mean()] of a frame of [ncols] columns. *)
Definition frame_cov (ncols : nat) (rows : list (list F)) : list (list F) :=
  np_cov (length rows) (columns_of ncols rows).

Definition frame_mean (ncols : nat) (rows : list (list F)) : list F :=
  map column_mean (columns_of ncols rows).

Definition fetch_data (history : string -> string -> string -> Series)
    (start_date end_date : string) : M unit :=
  s <- get_self ;;
  let data := download history start_date end_date (tickers s) in
  let ncols := length (columns data) in
  let returns := pct_change_dropna data in
  set_self {| tickers := tickers s;
              portfolio_size := portfolio_size s;
              statistics :=
                Some {| returns_data := returns;
                        cov_matrix := frame_cov ncols returns;
                        avg_returns := frame_mean ncols returns |} |}.

(** *** [generate_portfolio] *)

Definition generate_portfolio : M (dict F) :=
  s <- get_self ;;
  weights <- np_random_random (length (tickers s)) ;;
  let weights := map (fun wi => wi /. np_sum weights) weights in
  ret (dict_of (zip (tickers s) weights)).

(** *** [calculate_portfolio_metrics] *)

Definition calculate_portfolio_metrics (weights : list F) : M (F * F * F) :=
  st <- get_statistics ;;
  products <- lift (array_mul (avg_returns st) weights) ;;
  let portfolio_return := series_sum products *. of_int 252 in
  inner <- lift (np_dot_matrix (frame_mul (cov_matrix st) (of_int 252))
                               weights) ;;
  quadratic <- lift (np_dot weights inner) ;;
  let portfolio_volatility := fsqrt quadratic in
  let sharpe_ratio := portfolio_return /. portfolio_volatility in
  ret (portfolio_return, portfolio_volatility, sharpe_ratio).

(** *** [run_monte_carlo] *)

(** One dictionary appended to [results], one row of the DataFrame. *)
Record SimulationRow : Type := {
  sim_return : F;
  sim_volatility : F;
  sim_sharpe_ratio : F;
  sim_weights : list F
}.

(** The body of [for _ in range(num_simulations)], [n] more times. *)
Fixpoint simulation_loop (n : nat) (results : list SimulationRow)
  : M (list SimulationRow) :=
  match n with
  | O => ret results
  | S n' =>
      portfolio <- generate_portfolio ;;
      let weights := values portfolio in
      ' (r, vol, sharpe) <- calculate_portfolio_metrics weights ;;
      simulation_loop n'
        (results ++ [{| sim_return := r;
                        sim_volatility := vol;
                        sim_sharpe_ratio := sharpe;
                        sim_weights := weights |}])
  end.

(** [range(n)] is empty for every [n <= 0]. *)
Definition run_monte_carlo (num_simulations : Z)
  : M (list SimulationRow) :=
  simulation_loop (Z.to_nat num_simulations) [].

(** *** [optimize_portfolio] *)

Record OptimalPortfolio : Type := {
  opt_weights : dict F;
  opt_return : F;
  opt_volatility : F;
  opt_sharpe_ratio : F
}.

(** The closure [neg_sharpe_ratio]: it reads the instance it captured. *)
Definition neg_sharpe_ratio (w : world) (weights : list F) : result F :=
  match fst (calculate_portfolio_metrics weights w) with
  | Ok (_, _, sharpe) => Ok (fneg sharpe)
  | Raise e => Raise e
  end.

Definition sum_to_one : Scipy.Constraint F :=
  {| Scipy.type := Scipy.eq;
     Scipy.fun_ := fun x => np_sum x -. of_int 1 |}.

(** [1/len(self.tickers)]: division of two [int]s, which raises on 0. *)
Definition int_true_div (a b : Z) : result F :=
  if Z.eqb b 0 then Raise ZeroDivisionError
  else Ok (of_int a /. of_int b).

(** The problem handed to [minimize]. *)
Definition sharpe_problem (w : world) (initial_weights : list F)
  : Scipy.Problem F :=
  let n := length (tickers (self w)) in
  {| Scipy.objective := neg_sharpe_ratio w;
     Scipy.x0 := initial_weights;
     Scipy.method := "SLSQP";
     Scipy.bounds := repeat (of_int 0, of_int 1) n;
     Scipy.constraints := [sum_to_one] |}.

Definition optimize_portfolio (minimize : Scipy.Solver F)
    (risk_free_rate : F) : M OptimalPortfolio :=
  s <- get_self ;;
  let n := length (tickers s) in
  equal_weight <- lift (int_true_div 1 (Z.of_nat n)) ;;
  let initial_weights := repeat equal_weight n in
  result <- (fun w => (minimize (sharpe_problem w initial_weights), w)) ;;
  ' (opt_ret, opt_vol, opt_sharpe) <-
      calculate_portfolio_metrics (Scipy.x result) ;;
  ret {| opt_weights := dict_of (zip (tickers s) (Scipy.x result));
         opt_return := opt_ret;
         opt_volatility := opt_vol;
         opt_sharpe_ratio := opt_sharpe |}.

(** *** The script *)

(** The asset universe of the [__main__] block. *)
Definition main_tickers : list string :=
  ["SPY"; "AGG"; "VEA"; "VWO"; "GLD"; "REET"]%string.

(** The default [risk_free_rate=0.02] of [optimize_portfolio]: the double
    nearest to 2/100. *)
Definition default_risk_free_rate : F := of_int 2 /. of_int 100.

(** The [__main__] block, from a generator about to produce [rnd]: the
    instance is built, the data fetched, the simulation run and the
    optimum searched.  The two tables handed to [to_csv] are the outcome;
    a step that raises ends the script before anything is written. *)
Definition main (history : string -> string -> string -> Series)
    (minimize : Scipy.Solver F) (rnd : nat -> F)
  : result (list SimulationRow * list OptimalPortfolio) * world :=
  (_ <- fetch_data history "2018-01-01" "2023-12-31" ;;
   simulation_results <- run_monte_carlo 10000 ;;
   optimal_portfolio <- optimize_portfolio minimize default_risk_free_rate ;;
   ret (simulation_results, [optimal_portfolio]))
    {| self := init main_tickers (of_int 10000000); np_random := rnd |}.

End Program.

Arguments ReturnStatistics F : clear implicits.
Arguments PortfolioOptimizer F : clear implicits.
Arguments world F : clear implicits.
Arguments SimulationRow F : clear implicits.
Arguments OptimalPortfolio F : clear implicits.
Arguments M F A : clear implicits.

(** ** Vocabulary of the statements *)

Section Vocabulary.
Context {F : Type} `{Float64 F}.

(** The statistics are computed and have the shape of an [n]-asset
    universe: [n] means and an [n] by [n] covariance matrix. *)
Definition statistics_shaped (n : nat) (s : PortfolioOptimizer F) : bool :=
  match statistics s with
  | None => false
  | Some st =>
      Nat.eqb (length (avg_returns st)) n
      && Nat.eqb (length (cov_matrix st)) n
      && forallb (fun row => Nat.eqb (length row) n) (cov_matrix st)
  end.

(** The interpreter once the generator has produced [k] more doubles. *)
Definition after_draws (k : nat) (w : world F) : world F :=
  {| self := self w; np_random := fun i => np_random w (i + k)%nat |}.

(** The universe size of the instance. *)
Definition universe_size (w : world F) : nat := length (tickers (self w)).

(** The row of the result made of weights and of their metrics. *)
Definition row_of (weights : list F) (metrics : F * F * F)
  : SimulationRow F :=
  let '(r, vol, sharpe) := metrics in
  {| sim_return := r;
     sim_volatility := vol;
     sim_sharpe_ratio := sharpe;
     sim_weights := weights |}.

(** The problem of section 4.5 for a scorer [score] and [n] assets:
    minimize [-sharpe(weights)] subject to [sum(weights) == 1] and
    [0 <= weight_i <= 1] for each [i], from the equal weighting [1/n]. *)
Definition specified_problem (score : list F -> result (F * F * F))
    (n : nat) : Scipy.Problem F :=
  {| Scipy.objective :=
       fun weights =>
         match score weights with
         | Ok (_, _, sharpe) => Ok (fneg sharpe)
         | Raise e => Raise e
         end;
     Scipy.x0 := repeat (fdiv (of_int 1) (of_int (Z.of_nat n))) n;
     Scipy.method := "SLSQP";
     Scipy.bounds := repeat (of_int 0, of_int 1) n;
     Scipy.constraints :=
       [{| Scipy.type := Scipy.eq;
           Scipy.fun_ := fun x => fsub (np_sum x) (of_int 1) |}] |}.

(** What the optimizer returns once the solver has answered. *)
Definition optimal_portfolio (w : world F)
    (answer : result (Scipy.OptimizeResult F))
  : result (OptimalPortfolio F) * world F :=
  match answer with
  | Raise e => (Raise e, w)
  | Ok result =>
      match fst (calculate_portfolio_metrics (Scipy.x result) w) with
      | Raise e => (Raise e, w)
      | Ok (r, vol, sharpe) =>
          (Ok {| opt_weights :=
                   dict_of (zip (tickers (self w)) (Scipy.x result));
                 opt_return := r;
                 opt_volatility := vol;
                 opt_sharpe_ratio := sharpe |}, w)
      end
  end.

End Vocabulary.

(** ** The specification, in exact arithmetic *)

(** The sum of a list of reals. *)
Definition total (l : list R) : R := fold_right Rplus 0%R l.

Module Spec.
Local Open Scope R_scope.

(** [dot(a, b)]. *)
Definition dot (a b : list R) : R :=
  fold_right Rplus 0 (map (fun p => fst p * snd p) (combine a b)).

(** [w^T C w], the matrix [C] given by its rows. *)
Definition quadratic_form (w : list R) (C : list (list R)) : R :=
  dot w (map (fun row => dot row w) C).

(** Column [j] of a sample given by its rows. *)
Definition column (rows : list (list R)) (j : nat) : list R :=
  map (fun row => nth j row 0) rows.

(** The mean of a column, and the covariance of two columns over the
    same rows, with [L - 1] in the denominator. *)
Definition mean (col : list R) : R := total col / INR (length col).

Definition covariance (a b : list R) : R :=
  total (map (fun p => (fst p - mean a) * (snd p - mean b)) (combine a b))
  / (INR (length a) - 1).

(** The mean vector and the covariance matrix of a sample of [n] assets. *)
Definition mean_vector (n : nat) (rows : list (list R)) : list R :=
  map (fun j => mean (column rows j)) (seq 0 n).

Definition covariance_matrix (n : nat) (rows : list (list R))
  : list (list R) :=
  map (fun j =>
         map (fun k => covariance (column rows j) (column rows k)) (seq 0 n))
      (seq 0 n).

Definition periodsPerYear : R := 252.

(** The triple (return, volatility, sharpe) of section 4.3. *)
Definition score (w m : list R) (C : list (list R))
  : xreal * xreal * xreal :=
  let r := Fin (periodsPerYear * dot m w) in
  let volatility := xsqrt (Fin (periodsPerYear * quadratic_form w C)) in
  (r, volatility, xdiv r volatility).

(** An [n]-asset universe with its statistics: a mean per asset and a
    square covariance matrix. *)
Definition shaped (n : nat) (m : list R) (C : list (list R)) : Prop :=
  length m = n /\ length C = n /\ Forall (fun row => length row = n) C.

End Spec.

(** The instance, in exact arithmetic, that holds the statistics [m], [C]. *)
Definition session (names : list string) (size : xreal)
    (returns : list (list xreal)) (m : list R) (C : list (list R))
    (rnd : nat -> xreal) : world xreal :=
  {| self := {| tickers := names;
                portfolio_size := size;
                statistics :=
                  Some {| returns_data := returns;
                          cov_matrix := map (map Fin) C;
                          avg_returns := map Fin m |} |};
     np_random := rnd |}.

(** The two-asset scenario of section 8. *)
Definition two_assets : world xreal :=
  session ["SPY"; "AGG"]%string (Fin 10000000) []
          [0.001; 0.0005]%R
          [[0.0004; 0.00005]; [0.00005; 0.0002]]%R
          (fun _ => Fin 0.5).

Definition two_assets_b64 : world float :=
  {| self := {| tickers := ["SPY"; "AGG"]%string;
                portfolio_size := 10000000%float;
                statistics :=
                  Some {| returns_data := [];
                          cov_matrix := [[0.0004; 0.00005];
                                         [0.00005; 0.0002]]%float;
                          avg_returns := [0.001; 0.0005]%float |} |};
     np_random := fun _ => 0.5%float |}.

(** A one-asset universe whose asset never moved, so that its variance is
    0, at a moment when the generator is about to produce 0.0. *)
Definition flat_asset : world xreal :=
  session ["SPY"]%string (Fin 10000000) [] [0.001]%R [[0]]%R (fun _ => Fin 0).

Definition flat_asset_b64 : world float :=
  {| self := {| tickers := ["SPY"]%string;
                portfolio_size := 10000000%float;
                statistics :=
                  Some {| returns_data := [];
                          cov_matrix := [[0]]%float;
                          avg_returns := [0.001]%float |} |};
     np_random := fun _ => 0%float |}.

(** The contract of a weight vector of section 8, on doubles: no entry
    below 0, and a sum within 1e-9 of 1. *)
Definition valid_weights_b64 (weights : list float) : bool :=
  forallb (fun x => PrimFloat.leb 0 x) weights
  && PrimFloat.leb (PrimFloat.abs (PrimFloat.sub (np_sum weights) 1)) 1e-9.

(** Two solvers that stop where they start, at the initial guess: one
    reports status 9 of SLSQP, the iteration limit, and no success; the
    other reports success. *)
Definition stalled_solver : Scipy.Solver float :=
  fun problem =>
    Ok {| Scipy.x := Scipy.x0 problem;
          Scipy.success := false;
          Scipy.status := 9 |}.

Definition converged_solver : Scipy.Solver float :=
  fun problem =>
    Ok {| Scipy.x := Scipy.x0 problem;
          Scipy.success := true;
          Scipy.status := 0 |}.

(** Closing prices of the two tickers on consecutive days, the days
    numbered: two days give one return each, three days give two. *)
Definition two_days_b64 (ticker start_date end_date : string)
  : list (Z * float) :=
  if String.eqb ticker "SPY"
  then [(1%Z, 100%float); (2%Z, 110%float)]
  else [(1%Z, 50%float); (2%Z, 49%float)].

Definition three_days (ticker start_date end_date : string)
  : list (Z * xreal) :=
  if String.eqb ticker "SPY"
  then [(1%Z, Fin 100); (2%Z, Fin 110); (3%Z, Fin 121)]
  else [(1%Z, Fin 50); (2%Z, Fin 55); (3%Z, Fin 66)].

Definition three_days_returns : list (list R) :=
  [[110 / 100 + - (1); 55 / 50 + - (1)];
   [121 / 110 + - (1); 66 / 55 + - (1)]]%R.

(** ** Vocabulary of the further properties *)

(** The instance with another portfolio size. *)
Definition with_portfolio_size {F : Type} (size : F) (w : world F)
  : world F :=
  {| self := {| tickers := tickers (self w);
                portfolio_size := size;
                statistics := statistics (self w) |};
     np_random := np_random w |}.

(** The instance with its statistics cleared, as [__init__] leaves it. *)
Definition before_fetch {F : Type} (w : world F) : world F :=
  {| self := init (tickers (self w)) (portfolio_size (self w));
     np_random := np_random w |}.

(** A solver that answers every problem with an iterate of the shape of
    the initial guess, as [minimize] does when it returns. *)
Definition answers_in_shape {F : Type} (minimize : Scipy.Solver F) : Prop :=
  forall problem,
    exists result,
      minimize problem = Ok result
      /\ length (Scipy.x result) = length (Scipy.x0 problem).

(** Simple returns of a price series: [(p[t] - p[t-1]) / p[t-1]]. *)
Fixpoint simple_returns (previous : R) (prices : list R) : list R :=
  match prices with
  | [] => []
  | p :: rest => ((p - previous) / previous)%R :: simple_returns p rest
  end.

(** Entry [(j, k)] of a matrix given by its rows. *)
Definition entry (m : list (list xreal)) (j k : nat) : xreal :=
  nth k (nth j m []) NaN.

(** Six series of one day each, for the six tickers of the script. *)
Definition one_day_b64 (ticker start_date end_date : string)
  : list (Z * float) :=
  [(1%Z, 100%float)].

(** An instance without tickers, its statistics those of no asset. *)
Definition empty_universe_b64 : world float :=
  {| self := {| tickers := [];
                portfolio_size := 10000000%float;
                statistics :=
                  Some {| returns_data := [];
                          cov_matrix := [];
                          avg_returns := [] |} |};
     np_random := fun _ => 0.5%float |}.

(** A solver that raises, and one whose iterate has a single entry. *)
Definition failing_solver : Scipy.Solver float :=
  fun _ => Raise ValueError.

Definition short_solver : Scipy.Solver float :=
  fun _ =>
    Ok {| Scipy.x := [1%float]; Scipy.success := true; Scipy.status := 0 |}.

(** The columns of a frame are aligned with its index. *)
Definition aligned {F : Type} (data : @DataFrame F) : Prop :=
  Forall (fun col => length col = length (index data))
         (values (columns data)).

(** The combination [sum_j w_j * v_j] of vectors of [L] entries each. *)
Fixpoint combination (L : nat) (ws : list R) (vs : list (list R)) : list R :=
  match ws, vs with
  | w :: ws', v :: vs' =>
      map (fun p => (w * fst p + snd p)%R) (combine v (combination L ws' vs'))
  | _, _ => repeat 0%R L
  end.

(** A universe that lists one ticker twice. *)
Definition twice_listed_b64 : world float :=
  {| self := {| tickers := ["SPY"; "SPY"]%string;
                portfolio_size := 10000000%float;
                statistics :=
                  Some {| returns_data := [];
                          cov_matrix := [[0.0004; 0.00005];
                                         [0.00005; 0.0002]]%float;
                          avg_returns := [0.001; 0.0005]%float |} |};
     np_random := fun i => if Nat.even i then 0.25%float else 0.75%float |}.

(** * Properties *)

(** ** Sums and products of finite values *)

Section Finite.
Local Open Scope R_scope.

Lemma fold_left_Rplus (l : list R) (a : R) :
  fold_left Rplus l a = a + fold_right Rplus 0 l.
Proof.
  revert a; induction l as [|x l IH]; intros a; simpl.
  - lra.
  - rewrite IH. lra.
Qed.

Lemma fold_left_xadd (l : list R) (a : R) :
  fold_left xadd (map Fin l) (Fin a) = Fin (fold_left Rplus l a).
Proof.
  revert a; induction l as [|x l IH]; intros a; simpl; [reflexivity|].
  apply IH.
Qed.

Lemma np_sum_Fin (l : list R) :
  np_sum (map Fin l) = Fin (fold_right Rplus 0 l).
Proof.
  unfold np_sum. cbn [of_int fadd exact64].
  rewrite fold_left_xadd, fold_left_Rplus. f_equal. lra.
Qed.

Lemma series_sum_Fin (l : list R) :
  series_sum (map Fin l) = Fin (fold_right Rplus 0 l).
Proof.
  unfold series_sum.
  assert (kept : filter (fun v => negb (isnan v)) (map Fin l) = map Fin l).
  { induction l as [|x l IH]; [reflexivity|]. cbn [map filter].
    change (negb (isnan (Fin x))) with true. cbv iota. now rewrite IH. }
  rewrite kept. apply np_sum_Fin.
Qed.

Lemma elementwise_mul_Fin (a b : list R) :
  elementwise_mul (map Fin a) (map Fin b)
  = map Fin (map (fun p => fst p * snd p) (combine a b)).
Proof.
  unfold elementwise_mul, zip.
  revert b; induction a as [|x a IH]; intros [|y b]; simpl; try reflexivity.
  now rewrite IH.
Qed.

Lemma dot_product_Fin (a b : list R) :
  np_sum (elementwise_mul (map Fin a) (map Fin b)) = Fin (Spec.dot a b).
Proof. now rewrite elementwise_mul_Fin, np_sum_Fin. Qed.

Lemma same_length_Fin (a b : list R) :
  same_length (map Fin a) (map Fin b) = Nat.eqb (length a) (length b).
Proof. unfold same_length. now rewrite !length_map. Qed.

Lemma frame_mul_Fin (C : list (list R)) (k : R) :
  frame_mul (map (map Fin) C) (Fin k)
  = map (map Fin) (map (map (fun c => c * k)) C).
Proof.
  unfold frame_mul. rewrite !map_map. apply map_ext; intros row.
  rewrite !map_map. reflexivity.
Qed.

Lemma dot_scaled_left (k : R) (a b : list R) :
  Spec.dot (map (fun c => c * k) a) b = k * Spec.dot a b.
Proof.
  unfold Spec.dot.
  revert b; induction a as [|x a IH]; intros [|y b]; simpl; try lra.
  rewrite IH. lra.
Qed.

Lemma dot_scaled_right (k : R) (a b : list R) :
  Spec.dot a (map (fun c => k * c) b) = k * Spec.dot a b.
Proof.
  unfold Spec.dot.
  revert b; induction a as [|x a IH]; intros [|y b]; simpl; try lra.
  rewrite IH. lra.
Qed.

(** Scaling the matrix scales the quadratic form. *)
Lemma quadratic_form_scaled (k : R) (w : list R) (C : list (list R)) :
  Spec.quadratic_form w (map (map (fun c => c * k)) C)
  = k * Spec.quadratic_form w C.
Proof.
  unfold Spec.quadratic_form. rewrite map_map.
  rewrite <- dot_scaled_right. f_equal. rewrite map_map.
  apply map_ext; intros row. apply dot_scaled_left.
Qed.

End Finite.

(** ** The scorer *)

Section Scorer.
Local Open Scope R_scope.

Lemma array_mul_Fin (a b : list R) :
  length a = length b ->
  array_mul (map Fin a) (map Fin b)
  = Ok (map Fin (map (fun p => fst p * snd p) (combine a b))).
Proof.
  intros E. unfold array_mul.
  rewrite same_length_Fin, E, Nat.eqb_refl. now rewrite elementwise_mul_Fin.
Qed.

Lemma np_dot_Fin (a b : list R) :
  length a = length b ->
  np_dot (map Fin a) (map Fin b) = Ok (Fin (Spec.dot a b)).
Proof.
  intros E. unfold np_dot.
  rewrite same_length_Fin, E, Nat.eqb_refl. now rewrite dot_product_Fin.
Qed.

Lemma np_dot_matrix_Fin (C : list (list R)) (w : list R) :
  length C = length w ->
  Forall (fun row => length row = length w) C ->
  np_dot_matrix (map (map Fin) C) (map Fin w)
  = Ok (map Fin (map (fun row => Spec.dot row w) C)).
Proof.
  intros E rows. unfold np_dot_matrix.
  rewrite !length_map, E, Nat.eqb_refl. cbn [andb].
  replace (forallb _ _) with true.
  - f_equal. rewrite !map_map. apply map_ext; intros row.
    apply dot_product_Fin.
  - symmetry. apply forallb_forall. intros row' I.
    apply in_map_iff in I. destruct I as (row & <- & I).
    rewrite same_length_Fin. apply Nat.eqb_eq.
    now apply (proj1 (Forall_forall _ _) rows).
Qed.

(** On statistics of the right shape the scorer returns the triple of
    the specification and leaves the interpreter as it was. *)
Lemma scorer_exact names size returns rnd (w m : list R) (C : list (list R)) :
  Spec.shaped (length w) m C ->
  calculate_portfolio_metrics (map Fin w) (session names size returns m C rnd)
  = (Ok (Spec.score w m C), session names size returns m C rnd).
Proof.
  intros (Em & EC & rows).
  unfold calculate_portfolio_metrics, get_statistics, get_self, bind, lift,
    ret, session.
  cbn [self statistics avg_returns cov_matrix fst snd].
  rewrite (array_mul_Fin m w Em).
  cbn [of_int exact64]. rewrite frame_mul_Fin.
  rewrite np_dot_matrix_Fin.
  2: now rewrite length_map.
  2: { apply Forall_forall. intros row' I. apply in_map_iff in I.
       destruct I as (row & <- & I). rewrite length_map.
       now apply (proj1 (Forall_forall _ _) rows). }
  rewrite np_dot_Fin by now rewrite !length_map.
  rewrite series_sum_Fin. fold (Spec.dot m w).
  fold (Spec.quadratic_form w (map (map (fun c => c * 252)) C)).
  rewrite quadratic_form_scaled.
  unfold Spec.score, Spec.periodsPerYear. cbn [fmul fsqrt fdiv exact64 xmul].
  replace (Spec.dot m w * 252) with (252 * Spec.dot m w) by ring.
  reflexivity.
Qed.

Lemma sqrt_of_square (x y : R) : 0 <= y -> y * y = x -> sqrt x = y.
Proof. intros P <-. now apply sqrt_square. Qed.

End Scorer.

(** C1.  For statistics [m], [C] of an [n]-asset universe and [n] weights
    [w], the scorer returns exactly the triple of the specification:
    return [252 * dot(m, w)], volatility [sqrt(252 * w^T C w)] and sharpe
    [return / volatility], in exact arithmetic.  On the two-asset scenario
    with weights [0.5, 0.5] the return is [252*(0.5*0.001+0.5*0.0005)], that
    is 0.1890, and the volatility is the root of 252 times the quadratic
    form [0.000175], that is 0.21. *)
Theorem scorer_returns_specified_triple :
  (forall names size returns rnd (w m : list R) (C : list (list R)),
      Spec.shaped (length w) m C ->
      fst (calculate_portfolio_metrics (map Fin w)
             (session names size returns m C rnd))
      = Ok (Fin (252 * Spec.dot m w),
            xsqrt (Fin (252 * Spec.quadratic_form w C)),
            xdiv (Fin (252 * Spec.dot m w))
                 (xsqrt (Fin (252 * Spec.quadratic_form w C)))))
  /\ (fst (calculate_portfolio_metrics [Fin 0.5; Fin 0.5] two_assets)
      = Ok (Fin (252 * (0.5 * 0.001 + 0.5 * 0.0005)),
            Fin (sqrt (252 * 0.000175)),
            Fin (252 * (0.5 * 0.001 + 0.5 * 0.0005) / sqrt (252 * 0.000175)))
      /\ 252 * (0.5 * 0.001 + 0.5 * 0.0005) = 0.1890
      /\ Spec.quadratic_form [0.5; 0.5]
           [[0.0004; 0.00005]; [0.00005; 0.0002]] = 0.000175
      /\ sqrt (252 * 0.000175) = 0.21)%R.
Proof.
  assert (root : (sqrt (252 * 0.000175) = 0.21)%R)
    by (apply sqrt_of_square; lra).
  split; [|split; [|split; [|split]]].
  - intros. now rewrite scorer_exact.
  - change [Fin 0.5; Fin 0.5] with (map Fin [0.5; 0.5]%R).
    unfold two_assets. rewrite scorer_exact by (repeat split; repeat constructor).
    cbn [fst]. unfold Spec.score, Spec.periodsPerYear.
    replace (Spec.quadratic_form _ _) with 0.000175%R
      by (unfold Spec.quadratic_form, Spec.dot; simpl; lra).
    replace (Spec.dot _ _) with (0.5 * 0.001 + 0.5 * 0.0005)%R
      by (unfold Spec.dot; simpl; lra).
    unfold xsqrt. destruct (Rlt_dec _ 0) as [neg|_]; [lra|].
    unfold xdiv. destruct (Req_dec_T _ 0) as [zero|_]; [lra|].
    reflexivity.
  - lra.
  - unfold Spec.quadratic_form, Spec.dot; simpl; lra.
  - exact root.
Qed.

Lemma scorer_returns_specified_triple_witness :
  Spec.shaped 2 [0.001; 0.0005]%R [[0.0004; 0.00005]; [0.00005; 0.0002]]%R
  /\ fst (calculate_portfolio_metrics (map Fin [0.5; 0.5]%R) two_assets)
     = Ok (Fin (252 * Spec.dot [0.001; 0.0005] [0.5; 0.5]),
           xsqrt (Fin (252 * Spec.quadratic_form [0.5; 0.5]
                               [[0.0004; 0.00005]; [0.00005; 0.0002]])),
           xdiv (Fin (252 * Spec.dot [0.001; 0.0005] [0.5; 0.5]))
                (xsqrt (Fin (252 * Spec.quadratic_form [0.5; 0.5]
                               [[0.0004; 0.00005]; [0.00005; 0.0002]]))))%R.
Proof.
  assert (shape : Spec.shaped 2 [0.001; 0.0005]%R
                    [[0.0004; 0.00005]; [0.00005; 0.0002]]%R)
    by (repeat split; repeat constructor).
  split; [exact shape|].
  exact (proj1 scorer_returns_specified_triple _ _ _ _ [0.5; 0.5]%R _ _ shape).
Defined.

(** The scenario of C1 evaluated in binary64: 0.189, 0.21 and 0.9 up to
    the last digit of a double. *)
Example two_assets_binary64 :
  fst (calculate_portfolio_metrics [0.5; 0.5]%float two_assets_b64)
  = Ok (0.189, 0.21, 0.9)%float.
Proof. vm_compute. reflexivity. Qed.

(** Scoring on an instance fresh from [__init__], before [fetch_data],
    raises [TypeError]. *)
Example scoring_before_fetch :
  fst (calculate_portfolio_metrics [0.5; 0.5]%float
         {| self := init ["SPY"; "AGG"]%string 10000000%float;
            np_random := fun _ => 0.5%float |})
  = Raise TypeError.
Proof. reflexivity. Qed.

(** ** Dictionaries *)

Section Dict.
Context {V : Type}.

Lemma setitem_fresh (d : dict V) (k : string) (v : V) :
  ~ In k (keys d) -> setitem d k v = d ++ [(k, v)].
Proof.
  induction d as [|[k' v'] d IH]; simpl; intros fresh; [reflexivity|].
  destruct (String.eqb_spec k' k) as [->|_].
  - exfalso. apply fresh. now left.
  - f_equal. apply IH. intros I. apply fresh. now right.
Qed.

Lemma dict_of_from (pairs : list (string * V)) (d : dict V) :
  NoDup (keys d ++ map fst pairs) ->
  fold_left (fun d kv => setitem d (fst kv) (snd kv)) pairs d = d ++ pairs.
Proof.
  revert d; induction pairs as [|[k v] pairs IH]; intros d nodup; simpl.
  - now rewrite app_nil_r.
  - simpl in nodup. rewrite setitem_fresh.
    + rewrite IH.
      * now rewrite <- app_assoc.
      * unfold keys in *. rewrite map_app, <- app_assoc. exact nodup.
    + apply NoDup_remove_2 in nodup. intros I. apply nodup.
      apply in_or_app. now left.
Qed.

(** With distinct keys, [dict(pairs)] holds the pairs as they come. *)
Lemma dict_of_distinct (pairs : list (string * V)) :
  NoDup (map fst pairs) -> dict_of pairs = pairs.
Proof. intros nodup. unfold dict_of. now rewrite dict_of_from. Qed.

Lemma dict_of_zip (names : list string) (vs : list V) :
  NoDup names -> length vs = length names ->
  keys (dict_of (zip names vs)) = names
  /\ values (dict_of (zip names vs)) = vs.
Proof.
  intros nodup E. unfold zip, keys, values.
  assert (K : map fst (combine names vs) = names).
  { revert vs E. induction names as [|k names IH]; intros [|v vs] E;
      simpl in *; try discriminate; [reflexivity|].
    f_equal. apply IH; [now inversion nodup | congruence]. }
  rewrite dict_of_distinct by now rewrite K.
  split; [exact K|].
  clear K nodup. revert vs E.
  induction names as [|k names IH]; intros [|v vs] E;
    simpl in *; try discriminate; [reflexivity|].
  f_equal. apply IH. congruence.
Qed.

End Dict.

(** ** What the methods do to the interpreter *)

Section Effects.
Context {F : Type} `{Float64 F}.

(** The scorer reads the instance and writes nothing. *)
Lemma scorer_pure (weights : list F) (w : world F) :
  snd (calculate_portfolio_metrics weights w) = w.
Proof.
  unfold calculate_portfolio_metrics, get_statistics, get_self, bind, lift,
    ret, raise.
  destruct (statistics (self w)) as [st|]; [|reflexivity].
  destruct (array_mul _ _); [|reflexivity].
  destruct (np_dot_matrix _ _); [|reflexivity].
  destruct (np_dot _ _); reflexivity.
Qed.

(** Its answer depends on the instance alone. *)
Lemma scorer_reads_self (weights : list F) (w w' : world F) :
  self w = self w' ->
  fst (calculate_portfolio_metrics weights w)
  = fst (calculate_portfolio_metrics weights w').
Proof.
  intros E.
  unfold calculate_portfolio_metrics, get_statistics, get_self, bind, lift,
    ret, raise.
  rewrite <- E.
  destruct (statistics (self w)) as [st|]; [|reflexivity].
  destruct (array_mul _ _); [|reflexivity].
  destruct (np_dot_matrix _ _); [|reflexivity].
  destruct (np_dot _ _); reflexivity.
Qed.

Lemma scorer_run (weights : list F) (w : world F) :
  calculate_portfolio_metrics weights w
  = (fst (calculate_portfolio_metrics weights w), w).
Proof.
  rewrite <- (scorer_pure weights w) at 3. apply surjective_pairing.
Qed.

(** On statistics of the shape of the weights, the scorer raises
    nothing, and the Sharpe ratio is the quotient of the other two. *)
Lemma scorer_returns (weights : list F) (w : world F) :
  statistics_shaped (length weights) (self w) = true ->
  exists r vol,
    fst (calculate_portfolio_metrics weights w) = Ok (r, vol, fdiv r vol).
Proof.
  unfold statistics_shaped. intros shaped.
  unfold calculate_portfolio_metrics, get_statistics, get_self, bind, lift,
    ret, raise.
  destruct (statistics (self w)) as [st|]; [|discriminate].
  apply andb_prop in shaped. destruct shaped as (shaped & rows).
  apply andb_prop in shaped. destruct shaped as (Em & EC).
  unfold array_mul, same_length. rewrite Em.
  unfold np_dot_matrix, frame_mul. rewrite length_map, EC. cbn [andb].
  replace (forallb _ _) with true.
  - unfold np_dot, same_length. rewrite !length_map.
    apply Nat.eqb_eq in EC. rewrite EC, Nat.eqb_refl.
    eexists _, _. reflexivity.
  - symmetry. apply forallb_forall. intros row' I.
    apply in_map_iff in I. destruct I as (row & <- & I).
    unfold same_length. rewrite length_map.
    now apply (proj1 (forallb_forall _ _) rows).
Qed.

(** The sampler draws once, as many doubles as there are tickers. *)
Lemma sampler_run (w : world F) :
  generate_portfolio w
  = (Ok (let draws := map (np_random w) (seq 0 (universe_size w)) in
         dict_of (zip (tickers (self w))
                      (map (fun wi => fdiv wi (np_sum draws)) draws))),
     after_draws (universe_size w) w).
Proof. reflexivity. Qed.

Lemma sampler_reads (w w' : world F) :
  self w = self w' ->
  (forall i, np_random w i = np_random w' i) ->
  fst (generate_portfolio w) = fst (generate_portfolio w').
Proof.
  intros E same. rewrite !sampler_run. cbn [fst]. unfold universe_size.
  rewrite <- E.
  now rewrite (map_ext _ _ same).
Qed.

Lemma sampled_length (w : world F) (portfolio : dict F) :
  NoDup (tickers (self w)) ->
  fst (generate_portfolio w) = Ok portfolio ->
  keys portfolio = tickers (self w)
  /\ length (values portfolio) = universe_size w.
Proof.
  intros nodup. rewrite sampler_run. cbn [fst]. intros [= <-].
  destruct (dict_of_zip (tickers (self w))
              (map (fun wi => fdiv wi (np_sum (map (np_random w)
                                        (seq 0 (universe_size w)))))
                   (map (np_random w) (seq 0 (universe_size w)))))
    as (K & Vs).
  - exact nodup.
  - now rewrite !length_map, length_seq.
  - split; [exact K|]. cbv zeta. rewrite Vs.
    now rewrite !length_map, length_seq.
Qed.

End Effects.

(** ** The Monte Carlo loop *)

Section MonteCarlo.
Context {F : Type} `{Float64 F}.

(** One turn of the loop: sample, score, append, go on. *)
Lemma simulation_loop_step (n : nat) (results : list (SimulationRow F))
    (w : world F) :
  simulation_loop (S n) results w
  = let (sampled, w1) := generate_portfolio w in
    match sampled with
    | Raise e => (Raise e, w1)
    | Ok portfolio =>
        let (scored, w2) :=
          calculate_portfolio_metrics (values portfolio) w1 in
        match scored with
        | Raise e => (Raise e, w2)
        | Ok metrics =>
            simulation_loop n
              (results ++ [row_of (values portfolio) metrics]) w2
        end
    end.
Proof.
  cbn [simulation_loop]. unfold bind at 1.
  destruct (generate_portfolio w) as [[portfolio|e] w1]; [|reflexivity].
  unfold bind at 1.
  destruct (calculate_portfolio_metrics _ w1) as [[[[r vol] sharpe]|e] w2];
    reflexivity.
Qed.

(** The loop never touches the instance, whether it ends or raises. *)
Lemma simulation_loop_frame (n : nat) :
  forall (results : list (SimulationRow F)) (w : world F),
    self (snd (simulation_loop n results w)) = self w.
Proof.
  induction n as [|n IH]; intros results w; [reflexivity|].
  rewrite simulation_loop_step, sampler_run.
  rewrite scorer_run.
  destruct (fst (calculate_portfolio_metrics _ _)) as [metrics|e].
  - rewrite IH. reflexivity.
  - reflexivity.
Qed.

(** The rows the loop appends: one per turn, in the order of the draws,
    each made of the weights sampled in its turn and of the metrics the
    scorer gives for these weights. *)
Lemma simulation_loop_rows (n : nat) :
  forall (results : list (SimulationRow F)) (w : world F),
    NoDup (tickers (self w)) ->
    statistics_shaped (universe_size w) (self w) = true ->
    exists rows,
      fst (simulation_loop n results w) = Ok (results ++ rows)
      /\ length rows = n
      /\ forall i, (i < n)%nat ->
           exists row portfolio,
             nth_error rows i = Some row
             /\ fst (generate_portfolio
                       (after_draws (i * universe_size w) w))
                = Ok portfolio
             /\ sim_weights row = values portfolio
             /\ fst (calculate_portfolio_metrics (values portfolio) w)
                = Ok (sim_return row, sim_volatility row,
                      sim_sharpe_ratio row).
Proof.
  induction n as [|n IH]; intros results w nodup shaped.
  - exists []. cbn. rewrite app_nil_r. repeat split. intros i Hi. lia.
  - rewrite simulation_loop_step.
    destruct (generate_portfolio w) as [sampled w1] eqn:G.
    assert (G1 : w1 = after_draws (universe_size w) w)
      by (rewrite sampler_run in G; congruence).
    destruct sampled as [portfolio|e];
      [|rewrite sampler_run in G; discriminate].
    assert (Gf : fst (generate_portfolio w) = Ok portfolio)
      by now rewrite G.
    destruct (sampled_length w portfolio nodup Gf) as (_ & L).
    rewrite scorer_run.
    assert (Sw : self w1 = self w) by now subst w1.
    destruct (scorer_returns (values portfolio) w1) as (r & vol & Sc).
    { now rewrite L, Sw. }
    rewrite Sc.
    destruct (IH (results ++ [row_of (values portfolio) (r, vol, fdiv r vol)])
                w1) as (rows & Run & Len & Each).
    { now rewrite Sw. }
    { unfold universe_size in *. now rewrite Sw. }
    exists (row_of (values portfolio) (r, vol, fdiv r vol) :: rows).
    split; [|split].
    + rewrite Run. now rewrite <- app_assoc.
    + cbn [length]. now rewrite Len.
    + intros [|i] Hi.
      * exists (row_of (values portfolio) (r, vol, fdiv r vol)), portfolio.
        repeat split.
        -- rewrite <- Gf. apply sampler_reads; [reflexivity|].
           intros j. cbn. f_equal. lia.
        -- cbn [row_of sim_return sim_volatility sim_sharpe_ratio].
           rewrite <- Sc. now apply scorer_reads_self.
      * destruct (Each i) as (row & p & Nth & Gi & Wi & Si); [lia|].
        exists row, p. repeat split; try assumption.
        -- rewrite <- Gi. apply sampler_reads.
           ++ subst w1. reflexivity.
           ++ intros j. subst w1. cbn. f_equal.
              unfold universe_size. cbn [self after_draws]. lia.
        -- rewrite <- Si. apply scorer_reads_self. now rewrite Sw.
Qed.

End MonteCarlo.

(** C3.  For a positive [num_simulations], an instance with distinct
    tickers and statistics of the shape of its universe, the Monte Carlo
    run returns exactly [num_simulations] rows in draw order: row [i] holds
    the weights sampled in trial [i], which starts after the [i * N] draws
    of the trials before it, and the metrics the scorer gives for exactly
    these weights.  With [num_simulations = 1] there is exactly one row. *)
Theorem monte_carlo_rows {F : Type} `{Float64 F}
    (num_simulations : Z) (w : world F) :
  (0 < num_simulations)%Z ->
  NoDup (tickers (self w)) ->
  statistics_shaped (universe_size w) (self w) = true ->
  exists rows,
    fst (run_monte_carlo num_simulations w) = Ok rows
    /\ Z.of_nat (length rows) = num_simulations
    /\ (num_simulations = 1%Z -> length rows = 1%nat)
    /\ forall i, (i < length rows)%nat ->
         exists row portfolio,
           nth_error rows i = Some row
           /\ fst (generate_portfolio (after_draws (i * universe_size w) w))
              = Ok portfolio
           /\ sim_weights row = values portfolio
           /\ fst (calculate_portfolio_metrics (values portfolio) w)
              = Ok (sim_return row, sim_volatility row, sim_sharpe_ratio row).
Proof.
  intros positive nodup shaped. unfold run_monte_carlo.
  destruct (simulation_loop_rows (Z.to_nat num_simulations) [] w nodup shaped)
    as (rows & Run & Len & Each).
  exists rows. repeat split.
  - exact Run.
  - rewrite Len. lia.
  - intros ->. rewrite Len. reflexivity.
  - intros i Hi. apply Each. now rewrite <- Len.
Qed.

Lemma two_tickers_distinct : NoDup ["SPY"; "AGG"]%string.
Proof.
  constructor; [|constructor; [|constructor]]; simpl; intuition discriminate.
Defined.

Lemma monte_carlo_rows_witness :
  exists rows,
    fst (run_monte_carlo 1 two_assets_b64) = Ok rows
    /\ Z.of_nat (length rows) = 1%Z
    /\ (1%Z = 1%Z -> length rows = 1%nat)
    /\ forall i, (i < length rows)%nat ->
         exists row portfolio,
           nth_error rows i = Some row
           /\ fst (generate_portfolio
                     (after_draws (i * universe_size two_assets_b64)
                                  two_assets_b64))
              = Ok portfolio
           /\ sim_weights row = values portfolio
           /\ fst (calculate_portfolio_metrics (values portfolio)
                     two_assets_b64)
              = Ok (sim_return row, sim_volatility row, sim_sharpe_ratio row).
Proof.
  apply (monte_carlo_rows 1 two_assets_b64).
  - reflexivity.
  - exact two_tickers_distinct.
  - reflexivity.
Defined.

(** The run of C3 with two trials, evaluated in binary64: both draws of a
    trial are 0.5, so both rows hold the equal weighting. *)
Example two_trials_binary64 :
  fst (run_monte_carlo 2 two_assets_b64)
  = Ok [ {| sim_return := 0.189; sim_volatility := 0.21;
            sim_sharpe_ratio := 0.9; sim_weights := [0.5; 0.5] |};
         {| sim_return := 0.189; sim_volatility := 0.21;
            sim_sharpe_ratio := 0.9; sim_weights := [0.5; 0.5] |} ]%float.
Proof. vm_compute. reflexivity. Qed.

(** C7, as stated, fails: with [num_simulations = 0], and with a negative
    count, the run returns the empty result and raises nothing. *)
Lemma monte_carlo_zero_returns :
  fst (run_monte_carlo 0 two_assets_b64) = Ok []
  /\ fst (run_monte_carlo (-3) two_assets_b64) = Ok []
  /\ is_ok (fst (run_monte_carlo 0 two_assets_b64)) = true.
Proof. repeat split. Qed.

(** C7, amended.  For every [num_simulations <= 0] the Monte Carlo run
    raises no error: [range(num_simulations)] is empty, so the run returns
    the empty result, having drawn nothing from the random source and left
    the instance as it was. *)
Theorem monte_carlo_nonpositive {F : Type} `{Float64 F}
    (num_simulations : Z) (w : world F) :
  (num_simulations <= 0)%Z ->
  run_monte_carlo num_simulations w = (Ok [], w).
Proof.
  intros nonpositive. unfold run_monte_carlo.
  replace (Z.to_nat num_simulations) with 0%nat by lia. reflexivity.
Qed.

Lemma monte_carlo_nonpositive_witness :
  run_monte_carlo 0 two_assets_b64 = (Ok [], two_assets_b64).
Proof. apply (monte_carlo_nonpositive 0 two_assets_b64). discriminate. Defined.

(** ** The optimizer *)

Section Optimizer.
Context {F : Type} `{Float64 F}.

(** The optimizer, step by step: the equal weight, the call of the
    solver, the scorer on the final iterate. *)
Lemma optimize_run (minimize : Scipy.Solver F) (risk_free_rate : F)
    (w : world F) :
  optimize_portfolio minimize risk_free_rate w
  = match int_true_div 1 (Z.of_nat (universe_size w)) with
    | Raise e => (Raise e, w)
    | Ok equal_weight =>
        match minimize (sharpe_problem w
                          (repeat equal_weight (universe_size w))) with
        | Raise e => (Raise e, w)
        | Ok result =>
            match fst (calculate_portfolio_metrics (Scipy.x result) w) with
            | Raise e => (Raise e, w)
            | Ok (r, vol, sharpe) =>
                (Ok {| opt_weights :=
                         dict_of (zip (tickers (self w)) (Scipy.x result));
                       opt_return := r;
                       opt_volatility := vol;
                       opt_sharpe_ratio := sharpe |}, w)
            end
        end
    end.
Proof.
  unfold optimize_portfolio, bind, get_self, lift, universe_size.
  destruct (int_true_div _ _) as [equal_weight|e]; [|reflexivity].
  destruct (minimize _) as [result|e]; [|reflexivity].
  rewrite scorer_run.
  destruct (fst (calculate_portfolio_metrics _ _)) as [[[r vol] sharpe]|e];
    reflexivity.
Qed.

Lemma optimize_frame (minimize : Scipy.Solver F) (risk_free_rate : F)
    (w : world F) :
  snd (optimize_portfolio minimize risk_free_rate w) = w.
Proof.
  rewrite optimize_run.
  destruct (int_true_div _ _) as [equal_weight|e]; [|reflexivity].
  destruct (minimize _) as [result|e]; [|reflexivity].
  destruct (fst (calculate_portfolio_metrics _ _)) as [[[r vol] sharpe]|e];
    reflexivity.
Qed.

End Optimizer.

(** C9.  A scoring call, a Monte Carlo run and an optimizer call leave
    the instance as it was: tickers, portfolio size and the statistics
    (returns, covariance matrix, mean returns) are the same after the call
    as before it, whether the call returns or raises, for every solver.
    The scorer and the optimizer change nothing at all; the Monte Carlo
    run changes the state of the random generator only. *)
Theorem statistics_never_mutated {F : Type} `{Float64 F}
    (w : world F) (weights : list F) (num_simulations : Z)
    (minimize : Scipy.Solver F) (risk_free_rate : F) :
  snd (calculate_portfolio_metrics weights w) = w
  /\ self (snd (run_monte_carlo num_simulations w)) = self w
  /\ snd (optimize_portfolio minimize risk_free_rate w) = w.
Proof.
  split; [|split].
  - apply scorer_pure.
  - apply simulation_loop_frame.
  - apply optimize_frame.
Qed.

(** C10.  The optimizer's outcome is the same for any two risk-free
    rates: weights, return, volatility and Sharpe ratio are identical, and
    so is the state left behind. *)
Theorem risk_free_rate_ignored {F : Type} `{Float64 F}
    (minimize : Scipy.Solver F) (r1 r2 : F) (w : world F) :
  optimize_portfolio minimize r1 w = optimize_portfolio minimize r2 w.
Proof. now rewrite !optimize_run. Qed.

(** ** Division by zero in the scorer *)

(** Whatever the scorer returns, its third component is the quotient of
    the first two. *)
Lemma scorer_sharpe_is_quotient {F : Type} `{Float64 F}
    (weights : list F) (w : world F) (r vol sharpe : F) :
  fst (calculate_portfolio_metrics weights w) = Ok (r, vol, sharpe) ->
  sharpe = fdiv r vol.
Proof.
  unfold calculate_portfolio_metrics, get_statistics, get_self, bind, lift,
    ret, raise.
  destruct (statistics (self w)) as [st|]; [|discriminate].
  destruct (array_mul _ _); [|discriminate].
  destruct (np_dot_matrix _ _); [|discriminate].
  destruct (np_dot _ _); [|discriminate].
  cbn [fst]. now intros [= <- <- <-].
Qed.

Lemma xdiv_by_zero (x : R) :
  ((0 < x)%R -> xdiv (Fin x) (Fin 0) = PInf)
  /\ ((x < 0)%R -> xdiv (Fin x) (Fin 0) = NInf)
  /\ (x = 0%R -> xdiv (Fin x) (Fin 0) = NaN).
Proof.
  unfold xdiv.
  destruct (Req_dec_T 0 0) as [_|absurd]; [|now destruct absurd].
  destruct (Req_dec_T x 0) as [zero|nonzero];
    [|destruct (Rlt_dec 0 x) as [pos|nonpos]];
    repeat split; intros; try reflexivity; lra.
Qed.

(** The asset of variance 0, scored in exact arithmetic. *)
Lemma flat_asset_scored :
  fst (calculate_portfolio_metrics [Fin 1] flat_asset)
  = Ok (Fin 0.252, Fin 0, PInf).
Proof.
  change [Fin 1] with (map Fin [1%R]). unfold flat_asset.
  rewrite scorer_exact by (repeat split; repeat constructor).
  cbn [fst]. unfold Spec.score, Spec.periodsPerYear, Spec.quadratic_form,
    Spec.dot.
  cbn [map combine fold_right fst snd].
  replace (252 * (0.001 * 1 + 0))%R with 0.252%R by lra.
  replace (252 * (1 * (0 * 1 + 0) + 0))%R with 0%R by lra.
  unfold xsqrt. destruct (Rlt_dec 0 0) as [absurd|_]; [lra|].
  rewrite sqrt_0.
  now rewrite (proj1 (xdiv_by_zero 0.252)) by lra.
Qed.

(** C5, as stated, fails: on the asset of variance 0 the volatility is
    exactly 0, and the scorer returns a triple whose Sharpe ratio is
    infinite, in binary64 and in exact arithmetic alike; on the weight 0,
    where the return is 0 as well, the Sharpe ratio it returns is NaN.
    Nothing is raised. *)
Lemma zero_volatility_returns_infinity :
  fst (calculate_portfolio_metrics [1%float] flat_asset_b64)
  = Ok (0.252, 0, infinity)%float
  /\ fst (calculate_portfolio_metrics [0%float] flat_asset_b64)
     = Ok (0, 0, nan)%float
  /\ fst (calculate_portfolio_metrics [Fin 1] flat_asset)
     = Ok (Fin 0.252, Fin 0, PInf).
Proof.
  split; [|split].
  - vm_compute. reflexivity.
  - vm_compute. reflexivity.
  - exact flat_asset_scored.
Qed.

(** C5, amended.  On statistics of the shape of the weights the scorer
    signals no error, whatever the volatility: it returns the triple
    (return, volatility, return / volatility).  When the volatility is
    exactly 0 the Sharpe ratio it returns is the quotient by zero of
    float64: plus infinity for a positive return, minus infinity for a
    negative one, NaN for a return of 0. *)
Theorem zero_volatility_is_silent :
  (forall (F : Type) (ops : Float64 F) (weights : list F) (w : world F),
      statistics_shaped (length weights) (self w) = true ->
      exists r vol,
        fst (calculate_portfolio_metrics weights w) = Ok (r, vol, fdiv r vol))
  /\ (forall (weights : list xreal) (w : world xreal) (r : R) (sharpe : xreal),
         fst (calculate_portfolio_metrics weights w)
         = Ok (Fin r, Fin 0, sharpe) ->
         ((0 < r)%R -> sharpe = PInf)
         /\ ((r < 0)%R -> sharpe = NInf)
         /\ (r = 0%R -> sharpe = NaN)).
Proof.
  split.
  - intros F ops weights w. apply scorer_returns.
  - intros weights w r sharpe run.
    rewrite (scorer_sharpe_is_quotient _ _ _ _ _ run).
    apply xdiv_by_zero.
Qed.

Lemma zero_volatility_is_silent_witness :
  (statistics_shaped 1 (self flat_asset_b64) = true
   /\ exists r vol,
        fst (calculate_portfolio_metrics [1%float] flat_asset_b64)
        = Ok (r, vol, PrimFloat.div r vol))
  /\ (fst (calculate_portfolio_metrics [Fin 1] flat_asset)
      = Ok (Fin 0.252, Fin 0, PInf)
      /\ (0 < 0.252)%R
      /\ PInf = PInf).
Proof.
  split; split.
  - reflexivity.
  - apply (proj1 zero_volatility_is_silent float binary64 [1%float]
             flat_asset_b64).
    reflexivity.
  - exact flat_asset_scored.
  - split; [lra|].
    apply (proj2 zero_volatility_is_silent [Fin 1] flat_asset 0.252%R PInf
             flat_asset_scored).
    lra.
Defined.

(** ** The sampler *)

Section Sampler.
Local Open Scope R_scope.

Lemma total_nonneg (l : list R) :
  Forall (fun u => 0 <= u) l -> 0 <= total l.
Proof.
  induction 1 as [|u l Pu _ IH]; simpl; lra.
Qed.

Lemma total_positive (l : list R) :
  Forall (fun u => 0 <= u) l -> Exists (fun u => u <> 0) l -> 0 < total l.
Proof.
  intros nonneg. induction nonneg as [|u l Pu Pl IH]; intros some.
  - inversion some.
  - simpl. pose proof (total_nonneg l Pl) as T.
    inversion some as [? ? nonzero|? ? rest]; subst.
    + lra.
    + specialize (IH rest). lra.
Qed.

Lemma total_scaled (s : R) (l : list R) :
  total (map (fun u => u / s) l) = total l / s.
Proof.
  induction l as [|u l IH]; simpl.
  - unfold Rdiv. ring.
  - rewrite IH. unfold Rdiv. ring.
Qed.

Lemma total_zeros (n : nat) : total (repeat 0 n) = 0.
Proof. induction n as [|n IH]; simpl; lra. Qed.

Lemma xdiv_finite (u s : R) : s <> 0 -> xdiv (Fin u) (Fin s) = Fin (u / s).
Proof.
  intros nonzero. unfold xdiv.
  destruct (Req_dec_T s 0) as [zero|_]; [contradiction|reflexivity].
Qed.

(** The weights the sampler stores when its draws are the finite [draws]
    and their sum is not 0. *)
Lemma sampler_exact (w : world xreal) (draws : list R) :
  NoDup (tickers (self w)) ->
  map (np_random w) (seq 0 (universe_size w)) = map Fin draws ->
  total draws <> 0 ->
  exists portfolio,
    fst (generate_portfolio w) = Ok portfolio
    /\ keys portfolio = tickers (self w)
    /\ values portfolio = map Fin (map (fun u => u / total draws) draws).
Proof.
  intros nodup drawn nonzero. rewrite sampler_run. cbn [fst].
  eexists. split; [reflexivity|]. cbv zeta. rewrite drawn.
  rewrite np_sum_Fin. fold (total draws).
  assert (E : map (fun wi => fdiv wi (Fin (total draws))) (map Fin draws)
              = map Fin (map (fun u => u / total draws) draws)).
  { rewrite !map_map. apply map_ext. intros u. now apply xdiv_finite. }
  rewrite E. apply dict_of_zip; [exact nodup|].
  rewrite !length_map.
  apply (f_equal (@length _)) in drawn.
  rewrite !length_map, length_seq in drawn. now rewrite <- drawn.
Qed.

Lemma map_seq_constant {A : Type} (f : nat -> A) (c : A) (n : nat) :
  forall a, (forall i, (a <= i < a + n)%nat -> f i = c) ->
            map f (seq a n) = repeat c n.
Proof.
  induction n as [|n IH]; intros a same; [reflexivity|].
  simpl. rewrite (same a) by lia. f_equal. apply IH.
  intros i Hi. apply same. lia.
Qed.

(** The weights it stores when every draw is 0: the quotients [0 / 0]. *)
Lemma sampler_zero_draws (w : world xreal) :
  NoDup (tickers (self w)) ->
  (forall i, (i < universe_size w)%nat -> np_random w i = Fin 0) ->
  exists portfolio,
    fst (generate_portfolio w) = Ok portfolio
    /\ keys portfolio = tickers (self w)
    /\ values portfolio = repeat NaN (universe_size w).
Proof.
  intros nodup zeros. rewrite sampler_run. cbn [fst].
  eexists. split; [reflexivity|]. cbv zeta.
  rewrite (map_seq_constant (np_random w) (Fin 0))
    by (intros i Hi; apply zeros; lia).
  rewrite <- (map_repeat 0%R _ Fin), np_sum_Fin.
  fold (total (repeat 0 (universe_size w))).
  rewrite total_zeros, !map_repeat.
  replace (fdiv (Fin 0) (Fin 0)) with NaN
    by (symmetry; apply (xdiv_by_zero 0); reflexivity).
  apply dict_of_zip; [exact nodup|]. now rewrite repeat_length.
Qed.

End Sampler.

(** C4, as stated, fails: when the one draw of a one-asset universe is
    0.0 the sampler divides 0 by 0 and returns the weight NaN, which is
    neither nonnegative nor within 1e-9 of 1; it has drawn once and has not
    drawn again. *)
Lemma sampler_divides_by_zero :
  fst (generate_portfolio flat_asset_b64) = Ok [("SPY"%string, nan)]
  /\ valid_weights_b64 [nan] = false
  /\ fst (generate_portfolio flat_asset) = Ok [("SPY"%string, NaN)]
  /\ universe_size flat_asset_b64 = 1%nat
  /\ snd (generate_portfolio flat_asset_b64) = after_draws 1 flat_asset_b64.
Proof.
  repeat split.
  rewrite sampler_run. cbn [fst].
  unfold flat_asset, session, universe_size.
  cbn [self tickers np_random length seq map]. unfold np_sum.
  cbn [fold_left of_int fadd fdiv exact64 xadd].
  replace (0 + 0)%R with 0%R by lra.
  now rewrite (proj2 (proj2 (xdiv_by_zero 0)) eq_refl).
Qed.

(** C4, amended.  The sampler draws [N] doubles once and never again,
    and raises nothing.  For distinct tickers and draws in [[0, 1)] that
    are not all 0, it returns one weight per ticker, each nonnegative,
    and in exact arithmetic the weights sum to 1, hence within 1e-9 of 1.
    When all [N] draws are exactly 0 it does not retry: it divides by the
    zero sum and every weight it returns is NaN. *)
Theorem sampler_normalises_nonzero_draws :
  (forall (F : Type) (ops : Float64 F) (w : world F),
      is_ok (fst (generate_portfolio w)) = true
      /\ snd (generate_portfolio w) = after_draws (universe_size w) w)
  /\ (forall (w : world xreal) (draws : list R),
         NoDup (tickers (self w)) ->
         map (np_random w) (seq 0 (universe_size w)) = map Fin draws ->
         Forall (fun u => 0 <= u < 1)%R draws ->
         Exists (fun u => u <> 0%R) draws ->
         exists (portfolio : dict xreal) (weights : list R),
           fst (generate_portfolio w) = Ok portfolio
           /\ keys portfolio = tickers (self w)
           /\ values portfolio = map Fin weights
           /\ length weights = universe_size w
           /\ (1 <= universe_size w)%nat
           /\ Forall (fun x => 0 <= x)%R weights
           /\ total weights = 1%R
           /\ (Rabs (total weights - 1) <= 1e-9)%R)
  /\ (forall (w : world xreal),
         NoDup (tickers (self w)) ->
         (forall i, (i < universe_size w)%nat -> np_random w i = Fin 0) ->
         exists portfolio : dict xreal,
           fst (generate_portfolio w) = Ok portfolio
           /\ keys portfolio = tickers (self w)
           /\ values portfolio = repeat NaN (universe_size w)).
Proof.
  split; [|split].
  - intros F ops w. now rewrite sampler_run.
  - intros w draws nodup drawn range some.
    assert (nonneg : Forall (fun u => 0 <= u)%R draws).
    { apply (Forall_impl _ (P := fun u => (0 <= u < 1)%R)); [|exact range].
      intros u Hu. lra. }
    pose proof (total_positive draws nonneg some) as positive.
    destruct (sampler_exact w draws nodup drawn) as (portfolio & G & K & Vs).
    { lra. }
    assert (len : length draws = universe_size w).
    { apply (f_equal (@length _)) in drawn.
      now rewrite !length_map, length_seq in drawn. }
    assert (one : total (map (fun u => (u / total draws)%R) draws) = 1%R).
    { rewrite total_scaled. field. lra. }
    exists portfolio, (map (fun u => (u / total draws)%R) draws).
    repeat split; try assumption.
    + now rewrite length_map.
    + rewrite <- len. destruct draws; [inversion some|simpl; lia].
    + apply Forall_map.
      apply (Forall_impl _ (P := fun u => (0 <= u)%R)); [|exact nonneg].
      intros u Hu. apply Rle_mult_inv_pos; assumption.
    + rewrite one. replace (1 - 1)%R with 0%R by lra. rewrite Rabs_R0. lra.
  - exact sampler_zero_draws.
Qed.

Lemma sampler_normalises_nonzero_draws_witness :
  exists (portfolio : dict xreal) (weights : list R),
    fst (generate_portfolio two_assets) = Ok portfolio
    /\ keys portfolio = tickers (self two_assets)
    /\ values portfolio = map Fin weights
    /\ length weights = universe_size two_assets
    /\ (1 <= universe_size two_assets)%nat
    /\ Forall (fun x => 0 <= x)%R weights
    /\ total weights = 1%R
    /\ (Rabs (total weights - 1) <= 1e-9)%R.
Proof.
  apply (proj1 (proj2 sampler_normalises_nonzero_draws) two_assets
           [0.5; 0.5]%R).
  - exact two_tickers_distinct.
  - reflexivity.
  - repeat constructor; lra.
  - left. lra.
Defined.

(** ** The problem posed to the solver *)

Lemma equal_weight_exact (n : nat) :
  (1 <= n)%nat ->
  fdiv (of_int 1) (of_int (Z.of_nat n)) = Fin (1 / INR n).
Proof.
  intros positive. cbn [fdiv of_int exact64].
  rewrite <- INR_IZR_INZ. apply xdiv_finite.
  apply not_0_INR. lia.
Qed.

Lemma sum_to_one_exact (x : list R) :
  Scipy.fun_ sum_to_one (map Fin x) = Fin 0 <-> total x = 1%R.
Proof.
  cbn [Scipy.fun_ sum_to_one]. rewrite np_sum_Fin. fold (total x).
  cbn [fsub of_int exact64]. unfold xsub, xneg, xadd.
  split.
  - intros [= E]. lra.
  - intros ->. f_equal. lra.
Qed.

(** C2.  With at least one ticker, the optimizer calls the solver once,
    on exactly the problem of section 4.5 for its own scorer: the
    objective is the negated Sharpe ratio of the scorer, there is one
    constraint, of type equality, on [sum(x) - 1], the bounds are [(0, 1)]
    for each asset, the initial guess is [1/N] for each of the [N] assets,
    and what the optimizer returns is made of the solver's answer to this
    problem.  In exact arithmetic the guess is the real [1/N], the bounds
    are 0 and 1, and the constraint function is 0 exactly when the
    weights sum to 1. *)
Theorem optimizer_poses_sharpe_problem :
  (forall (F : Type) (ops : Float64 F) (minimize : Scipy.Solver F)
          (risk_free_rate : F) (w : world F),
      (1 <= universe_size w)%nat ->
      optimize_portfolio minimize risk_free_rate w
      = optimal_portfolio w
          (minimize
             (specified_problem
                (fun weights => fst (calculate_portfolio_metrics weights w))
                (universe_size w))))
  /\ (forall (score : list xreal -> result (xreal * xreal * xreal)) (n : nat),
         (1 <= n)%nat ->
         Scipy.x0 (specified_problem score n) = repeat (Fin (1 / INR n)) n
         /\ Scipy.bounds (specified_problem score n) = repeat (Fin 0, Fin 1) n
         /\ exists c,
              Scipy.constraints (specified_problem score n) = [c]
              /\ Scipy.type c = Scipy.eq
              /\ forall x : list R,
                   Scipy.fun_ c (map Fin x) = Fin 0 <-> total x = 1%R).
Proof.
  split.
  - intros F ops minimize risk_free_rate w positive.
    rewrite optimize_run. unfold int_true_div.
    destruct (Z.eqb_spec (Z.of_nat (universe_size w)) 0) as [zero|_]; [lia|].
    reflexivity.
  - intros score n positive.
    cbn [Scipy.x0 Scipy.bounds Scipy.constraints specified_problem].
    rewrite equal_weight_exact by exact positive.
    split; [reflexivity|]. split; [reflexivity|].
    eexists. split; [reflexivity|]. split; [reflexivity|].
    exact sum_to_one_exact.
Qed.

Lemma optimizer_poses_sharpe_problem_witness :
  optimize_portfolio stalled_solver 0.02%float two_assets_b64
  = optimal_portfolio two_assets_b64
      (stalled_solver
         (specified_problem
            (fun weights =>
               fst (calculate_portfolio_metrics weights two_assets_b64))
            (universe_size two_assets_b64))).
Proof.
  apply (proj1 optimizer_poses_sharpe_problem float binary64 stalled_solver
           0.02%float two_assets_b64).
  unfold universe_size. simpl. lia.
Defined.

(** ** Non-convergence of the solver *)

(** C8, as stated, fails: the solver that stops at the initial guess
    without success (status 9, the iteration limit) and the solver that
    stops there with success make the optimizer return the very same
    value, the four entries weights, return, volatility and Sharpe ratio.
    The value returned carries no convergence flag. *)
Lemma nonconvergence_leaves_no_flag :
  stalled_solver
    (specified_problem
       (fun weights => fst (calculate_portfolio_metrics weights two_assets_b64))
       2)
  = Ok {| Scipy.x := [0.5; 0.5]%float;
          Scipy.success := false;
          Scipy.status := 9 |}
  /\ fst (optimize_portfolio stalled_solver 0.02%float two_assets_b64)
     = Ok {| opt_weights := [("SPY"%string, 0.5%float);
                             ("AGG"%string, 0.5%float)];
             opt_return := 0.189%float;
             opt_volatility := 0.21%float;
             opt_sharpe_ratio := 0.9%float |}
  /\ optimize_portfolio converged_solver 0.02%float two_assets_b64
     = optimize_portfolio stalled_solver 0.02%float two_assets_b64.
Proof.
  split; [|split]; vm_compute; reflexivity.
Qed.

(** C8, amended.  Whenever the solver returns without having converged,
    the optimizer raises no error and returns the solver's final iterate
    unchanged, one weight per ticker, with the metrics the scorer gives
    for this iterate; the weights are the iterate itself, so they satisfy
    the constraints exactly when the iterate does.  The value returned
    carries no convergence flag: it is the same for every solver that ends
    at this iterate, whether or not that solver reports success. *)
Theorem nonconvergence_returns_iterate {F : Type} `{Float64 F}
    (minimize : Scipy.Solver F) (risk_free_rate : F) (w : world F)
    (result : Scipy.OptimizeResult F) :
  (1 <= universe_size w)%nat ->
  NoDup (tickers (self w)) ->
  statistics_shaped (universe_size w) (self w) = true ->
  minimize
    (specified_problem
       (fun weights => fst (calculate_portfolio_metrics weights w))
       (universe_size w))
  = Ok result ->
  Scipy.success result = false ->
  length (Scipy.x result) = universe_size w ->
  exists (portfolio : OptimalPortfolio F),
    optimize_portfolio minimize risk_free_rate w = (Ok portfolio, w)
    /\ keys (opt_weights portfolio) = tickers (self w)
    /\ values (opt_weights portfolio) = Scipy.x result
    /\ fst (calculate_portfolio_metrics (Scipy.x result) w)
       = Ok (opt_return portfolio, opt_volatility portfolio,
             opt_sharpe_ratio portfolio)
    /\ forall (minimize' : Scipy.Solver F) (result' : Scipy.OptimizeResult F),
         minimize'
           (specified_problem
              (fun weights => fst (calculate_portfolio_metrics weights w))
              (universe_size w))
         = Ok result' ->
         Scipy.x result' = Scipy.x result ->
         optimize_portfolio minimize' risk_free_rate w = (Ok portfolio, w).
Proof.
  intros positive nodup shaped answer failed len.
  assert (run : forall (m : Scipy.Solver F) (res : Scipy.OptimizeResult F),
             m (specified_problem
                  (fun weights => fst (calculate_portfolio_metrics weights w))
                  (universe_size w)) = Ok res ->
             optimize_portfolio m risk_free_rate w
             = optimal_portfolio w (Ok res)).
  { intros m res E. rewrite optimize_run. unfold int_true_div.
    destruct (Z.eqb_spec (Z.of_nat (universe_size w)) 0) as [zero|_]; [lia|].
    change (sharpe_problem w _)
      with (specified_problem
              (fun weights => fst (calculate_portfolio_metrics weights w))
              (universe_size w)).
    now rewrite E. }
  destruct (scorer_returns (Scipy.x result) w) as (r & vol & Sc).
  { now rewrite len. }
  destruct (dict_of_zip (tickers (self w)) (Scipy.x result) nodup len)
    as (K & Vs).
  exists {| opt_weights := dict_of (zip (tickers (self w)) (Scipy.x result));
            opt_return := r;
            opt_volatility := vol;
            opt_sharpe_ratio := fdiv r vol |}.
  cbn [opt_weights opt_return opt_volatility opt_sharpe_ratio].
  repeat split; try assumption.
  - rewrite (run minimize result answer). unfold optimal_portfolio.
    now rewrite Sc.
  - intros minimize' result' answer' same.
    rewrite (run minimize' result' answer'). unfold optimal_portfolio.
    now rewrite same, Sc.
Qed.

Lemma nonconvergence_returns_iterate_witness :
  exists (portfolio : OptimalPortfolio float),
    optimize_portfolio stalled_solver 0.02%float two_assets_b64
    = (Ok portfolio, two_assets_b64)
    /\ keys (opt_weights portfolio) = tickers (self two_assets_b64)
    /\ values (opt_weights portfolio) = [0.5; 0.5]%float
    /\ fst (calculate_portfolio_metrics [0.5; 0.5]%float two_assets_b64)
       = Ok (opt_return portfolio, opt_volatility portfolio,
             opt_sharpe_ratio portfolio)
    /\ forall (minimize' : Scipy.Solver float)
              (result' : Scipy.OptimizeResult float),
         minimize'
           (specified_problem
              (fun weights =>
                 fst (calculate_portfolio_metrics weights two_assets_b64))
              (universe_size two_assets_b64))
         = Ok result' ->
         Scipy.x result' = [0.5; 0.5]%float ->
         optimize_portfolio minimize' 0.02%float two_assets_b64
         = (Ok portfolio, two_assets_b64).
Proof.
  apply (nonconvergence_returns_iterate stalled_solver 0.02%float
           two_assets_b64
           {| Scipy.x := [0.5; 0.5]%float;
              Scipy.success := false;
              Scipy.status := 9 |}).
  - unfold universe_size. simpl. lia.
  - exact two_tickers_distinct.
  - reflexivity.
  - vm_compute. reflexivity.
  - reflexivity.
  - reflexivity.
Defined.

(** ** The statistics of the returns *)

Section Statistics.
Local Open Scope R_scope.

(** [fetch_data] raises nothing: it stores the returns that stay after
    [dropna], their covariance matrix and their means. *)
Lemma fetch_data_run {F : Type} `{Float64 F}
    (history : string -> string -> string -> Series)
    (start_date end_date : string) (w : world F) :
  fetch_data history start_date end_date w
  = (Ok tt,
     let data := download history start_date end_date (tickers (self w)) in
     let ncols := length (columns data) in
     let returns := pct_change_dropna data in
     {| self :=
          {| tickers := tickers (self w);
             portfolio_size := portfolio_size (self w);
             statistics :=
               Some {| returns_data := returns;
                       cov_matrix := frame_cov ncols returns;
                       avg_returns := frame_mean ncols returns |} |};
        np_random := np_random w |}).
Proof. reflexivity. Qed.

(** Every row that stays has one entry per column, none of them NaN. *)
Lemma pct_change_dropna_rows {F : Type} `{Float64 F} (data : DataFrame) :
  Forall (fun row => length row = length (columns data)
                     /\ existsb isnan row = false)
         (pct_change_dropna data).
Proof.
  unfold pct_change_dropna, dropna, rows_of. apply Forall_forall.
  intros row I. apply filter_In in I. destruct I as (I & kept).
  apply in_map_iff in I. destruct I as (i & <- & _).
  split.
  - unfold row_at, values. now rewrite !length_map.
  - now apply negb_true_iff in kept.
Qed.

Lemma column_mean_Fin (col : list R) :
  col <> [] -> column_mean (map Fin col) = Fin (Spec.mean col).
Proof.
  intros nonempty. unfold column_mean, Spec.mean.
  rewrite np_sum_Fin, length_map. fold (total col).
  cbn [fdiv of_int exact64]. rewrite <- INR_IZR_INZ.
  apply xdiv_finite. apply not_0_INR.
  destruct col; [contradiction|discriminate].
Qed.

Lemma columns_of_Fin (n : nat) (rows : list (list R)) :
  Forall (fun row => length row = n) rows ->
  columns_of n (map (map Fin) rows)
  = map (fun j => map Fin (Spec.column rows j)) (seq 0 n).
Proof.
  intros shape. unfold columns_of, Spec.column.
  apply map_ext_in. intros j Hj. apply in_seq in Hj.
  rewrite !map_map. apply map_ext_in. intros row Hrow.
  pose proof (proj1 (Forall_forall _ _) shape row Hrow) as len.
  cbv beta in len.
  cbn [fnan exact64].
  rewrite (nth_indep _ NaN (Fin 0)) by (rewrite length_map; lia).
  apply map_nth.
Qed.

Lemma centred_products (a b : list R) (ma mb : R) :
  Spec.dot (map (fun v => v + - ma) a) (map (fun v => v + - mb) b)
  = total (map (fun p => (fst p - ma) * (snd p - mb)) (combine a b)).
Proof.
  unfold Spec.dot, total.
  revert b; induction a as [|x a IH]; intros [|y b]; simpl; try reflexivity.
  rewrite IH. unfold Rminus. reflexivity.
Qed.

(** With two rows or more, [np.cov] is the sample covariance. *)
Lemma np_cov_Fin (L : nat) (cols : list (list R)) :
  (2 <= L)%nat ->
  Forall (fun col => length col = L) cols ->
  np_cov L (map (map Fin) cols)
  = map (fun a => map (fun b => Fin (Spec.covariance a b)) cols) cols.
Proof.
  intros two shape. unfold np_cov.
  destruct (Z.leb_spec (Z.of_nat L - 1) 0) as [small|_]; [lia|].
  assert (C : map (fun col => map (fun v => fsub v (column_mean col)) col)
                  (map (map Fin) cols)
              = map (map Fin)
                    (map (fun col => map (fun v => v + - Spec.mean col) col)
                         cols)).
  { rewrite !map_map. apply map_ext_in. intros col Hcol.
    pose proof (proj1 (Forall_forall _ _) shape col Hcol) as len.
  cbv beta in len.
    rewrite column_mean_Fin by (destruct col; [simpl in len; lia|discriminate]).
    rewrite !map_map. reflexivity. }
  rewrite C. clear C. rewrite !map_map.
  apply map_ext_in. intros a Ha. rewrite !map_map.
  apply map_ext_in. intros b Hb.
  rewrite <- (map_map (fun v => v + - Spec.mean a) Fin a).
  rewrite dot_product_Fin, centred_products.
  cbn [fmul fdiv of_int exact64].
  pose proof (proj1 (Forall_forall _ _) shape a Ha) as len.
  cbv beta in len.
  assert (D : IZR (Z.of_nat L - 1) = INR (length a) - 1).
  { rewrite len, minus_IZR, <- INR_IZR_INZ. reflexivity. }
  assert (nonzero : IZR (Z.of_nat L - 1) <> 0).
  { apply not_0_IZR. lia. }
  rewrite xdiv_finite by exact nonzero.
  cbn [xmul]. f_equal. unfold Spec.covariance. rewrite <- D.
  field. exact nonzero.
Qed.

(** With one row, or none, every entry of [np.cov] is NaN. *)
Lemma one_point_covariance (a b : xreal) :
  fmul (np_sum (elementwise_mul [fsub a (column_mean [a])]
                                [fsub b (column_mean [b])]))
       (fdiv (of_int 1) (of_int 0))
  = NaN.
Proof.
  unfold column_mean, np_sum, elementwise_mul, zip.
  cbn [length Z.of_nat Pos.of_succ_nat fold_left map combine fst snd
       fmul fdiv fsub fadd of_int exact64].
  rewrite (proj1 (xdiv_by_zero 1)) by lra.
  assert (centre : forall x : R,
             xsub (Fin x) (xdiv (xadd (Fin 0) (Fin x)) (Fin 1)) = Fin 0).
  { intros x. cbn [xadd]. rewrite xdiv_finite by lra.
    unfold xsub, xneg, xadd. f_equal. field. }
  assert (lost : forall s : bool,
             xsub (if s then PInf else NInf)
                  (xdiv (xadd (Fin 0) (if s then PInf else NInf)) (Fin 1))
             = NaN).
  { intros [|]; cbn [xadd xdiv]; destruct (Rlt_dec 1 0); try lra;
      reflexivity. }
  assert (zero : xmul (xadd (Fin 0) (xmul (Fin 0) (Fin 0))) PInf = NaN).
  { cbn [xmul xadd]. unfold xinf_scaled.
    destruct (Req_dec_T (0 + 0 * 0) 0) as [_|absurd]; [reflexivity|].
    exfalso. apply absurd. ring. }
  destruct a as [x| | |], b as [y| | |];
    rewrite ?centre, ?(lost true), ?(lost false);
    try exact zero; try reflexivity.
  all: cbn [xsub xneg xadd xdiv xmul]; try reflexivity.
Qed.

Lemma np_cov_degenerate (L : nat) (cols : list (list xreal)) :
  (L < 2)%nat ->
  Forall (fun col => length col = L) cols ->
  Forall (Forall (fun v => v = NaN)) (np_cov L cols).
Proof.
  intros few shape. unfold np_cov.
  destruct (Z.leb_spec (Z.of_nat L - 1) 0) as [_|large]; [|lia].
  apply Forall_map, Forall_map. apply Forall_forall. intros a Ha.
  apply Forall_map, Forall_map. apply Forall_forall. intros b Hb.
  pose proof (proj1 (Forall_forall _ _) shape a Ha) as la.
  cbv beta in la.
  pose proof (proj1 (Forall_forall _ _) shape b Hb) as lb.
  cbv beta in lb.
  destruct a as [|x [|? ?]]; simpl in la; try lia;
    destruct b as [|y [|? ?]]; simpl in lb; try lia.
  - unfold np_sum, elementwise_mul, zip.
    cbn [map combine fold_left fmul fdiv of_int exact64].
    rewrite (proj1 (xdiv_by_zero 1)) by lra.
    cbn [xmul]. unfold xinf_scaled.
    destruct (Req_dec_T 0 0) as [_|absurd]; [reflexivity|now destruct absurd].
  - apply one_point_covariance.
Qed.

End Statistics.

(** C6, as stated, fails: two days of prices leave one aligned
    observation, and [fetch_data] raises nothing; it stores this one row
    of returns, its means, and a covariance matrix of NaN. *)
Lemma one_observation_is_accepted :
  fetch_data two_days_b64 "2018-01-01" "2018-01-03" two_assets_b64
  = (Ok tt,
     {| self :=
          {| tickers := ["SPY"; "AGG"]%string;
             portfolio_size := 10000000%float;
             statistics :=
               Some {| returns_data :=
                         [[0.10000000000000009; -0.020000000000000018]]%float;
                       cov_matrix := [[nan; nan]; [nan; nan]];
                       avg_returns :=
                         [0.10000000000000009; -0.020000000000000018]%float
                    |} |};
        np_random := np_random two_assets_b64 |}).
Proof. vm_compute. reflexivity. Qed.

(** C6, amended.  [fetch_data] never fails for want of observations: it
    always returns, having stored the aligned returns left after rows with
    a missing value are dropped, and their statistics, one mean and one row
    of the covariance matrix per column.  With fewer than 2 such
    observations every entry of the covariance matrix it stores is NaN.
    With 2 observations or more, all finite, it stores the mean vector and
    the covariance matrix (denominator [L - 1]) of that same sample. *)
Theorem statistics_of_aligned_sample :
  (forall (F : Type) (ops : Float64 F)
          (history : string -> string -> string -> Series)
          (start_date end_date : string) (w : world F),
      fst (fetch_data history start_date end_date w) = Ok tt)
  /\ (forall (history : string -> string -> string -> Series)
             (start_date end_date : string) (w : world xreal),
         exists (st : ReturnStatistics xreal) (n : nat),
           statistics (self (snd (fetch_data history start_date end_date w)))
           = Some st
           /\ returns_data st
              = pct_change_dropna
                  (download history start_date end_date (tickers (self w)))
           /\ Forall (fun row => length row = n) (returns_data st)
           /\ length (avg_returns st) = n
           /\ length (cov_matrix st) = n
           /\ (length (returns_data st) < 2 ->
               Forall (Forall (fun v => v = NaN)) (cov_matrix st))
           /\ (forall rows : list (list R),
                  returns_data st = map (map Fin) rows ->
                  2 <= length rows ->
                  avg_returns st = map Fin (Spec.mean_vector n rows)
                  /\ cov_matrix st
                     = map (map Fin) (Spec.covariance_matrix n rows))).
Proof.
  split; [reflexivity|].
  intros history start_date end_date w. rewrite fetch_data_run.
  cbn [snd self statistics]. cbv zeta.
  set (data := download history start_date end_date (tickers (self w))).
  set (n := length (columns data)).
  set (returns := pct_change_dropna data).
  assert (shape : Forall (fun row => length row = n) returns).
  { apply (Forall_impl _ (P := fun row => length row = n
                                          /\ existsb isnan row = false)).
    - now intros row (len & _).
    - apply pct_change_dropna_rows. }
  exists {| returns_data := returns;
            cov_matrix := frame_cov n returns;
            avg_returns := frame_mean n returns |}, n.
  cbn [returns_data cov_matrix avg_returns].
  split; [reflexivity|]. split; [reflexivity|]. split; [exact shape|].
  split; [|split; [|split]].
  - unfold frame_mean, columns_of. now rewrite !length_map, length_seq.
  - unfold frame_cov, np_cov, columns_of.
    now rewrite !length_map, length_seq.
  - intros few. unfold frame_cov. apply np_cov_degenerate; [exact few|].
    unfold columns_of. apply Forall_map, Forall_forall. intros j _.
    now rewrite length_map.
  - intros rows finite two. rewrite finite in shape.
    assert (shape' : Forall (fun row => length row = n) rows).
    { apply Forall_forall. intros row I.
      pose proof (proj1 (Forall_forall _ _) shape (map Fin row)
                    (in_map _ _ _ I)) as len.
      cbv beta in len. now rewrite length_map in len. }
    unfold frame_mean, frame_cov. rewrite finite, length_map.
    rewrite (columns_of_Fin n rows shape').
    assert (len : forall j, length (Spec.column rows j) = length rows)
      by (intros j; unfold Spec.column; now rewrite length_map).
    split.
    + unfold Spec.mean_vector. rewrite !map_map.
      apply map_ext. intros j. apply column_mean_Fin.
      intros empty. specialize (len j). rewrite empty in len.
      simpl in len. lia.
    + rewrite <- (map_map (Spec.column rows) (map Fin)).
      rewrite np_cov_Fin.
      * unfold Spec.covariance_matrix. rewrite !map_map.
        apply map_ext. intros j. now rewrite !map_map.
      * exact two.
      * apply Forall_map, Forall_forall. intros j _. apply len.
Qed.

(** Three days of prices leave two aligned observations. *)
Lemma three_days_sample :
  pct_change_dropna
    (download three_days "2018-01-01" "2018-01-04" ["SPY"; "AGG"]%string)
  = map (map Fin) three_days_returns.
Proof.
  unfold pct_change_dropna.
  assert (data :
            download three_days "2018-01-01" "2018-01-04"
                     ["SPY"; "AGG"]%string
            = {| index := [1; 2; 3]%Z;
                 columns := [("SPY"%string, [Fin 100; Fin 110; Fin 121]);
                             ("AGG"%string, [Fin 50; Fin 55; Fin 66])] |})
    by reflexivity.
  rewrite data. cbn [index columns values map snd length].
  assert (change : forall a b c : R,
             a <> 0%R -> b <> 0%R ->
             pct_change [Fin a; Fin b; Fin c]
             = [NaN; Fin (b / a + - (1)); Fin (c / b + - (1))]).
  { intros a b c Ha Hb. unfold pct_change, shift_one, zip.
    cbn [ffill_from isnan exact64 xisnan length firstn combine map fst snd
         fnan fsub fdiv of_int].
    rewrite !xdiv_finite by assumption. reflexivity. }
  rewrite !change by lra.
  reflexivity.
Qed.

Lemma statistics_of_aligned_sample_witness :
  exists st : ReturnStatistics xreal,
    statistics
      (self (snd (fetch_data three_days "2018-01-01" "2018-01-04" two_assets)))
    = Some st
    /\ returns_data st = map (map Fin) three_days_returns
    /\ avg_returns st = map Fin (Spec.mean_vector 2 three_days_returns)
    /\ cov_matrix st
       = map (map Fin) (Spec.covariance_matrix 2 three_days_returns).
Proof.
  destruct (proj2 statistics_of_aligned_sample three_days
              "2018-01-01"%string "2018-01-04"%string two_assets)
    as (st & n & stored & sample & shape & _ & _ & _ & many).
  change (tickers (self two_assets)) with ["SPY"; "AGG"]%string in sample.
  rewrite three_days_sample in sample.
  assert (two : n = 2%nat).
  { rewrite sample in shape. unfold three_days_returns in shape.
    cbn [map] in shape. apply Forall_inv in shape. symmetry. exact shape. }
  subst n.
  exists st. split; [exact stored|]. split; [exact sample|].
  apply (many three_days_returns sample). simpl. lia.
Defined.

(** * Further properties of the program *)

(** ** Errors of the scorer and of the optimizer *)

Lemma scorer_without_statistics {F : Type} `{Float64 F}
    (weights : list F) (w : world F) :
  statistics (self w) = None ->
  calculate_portfolio_metrics weights w = (Raise TypeError, w).
Proof.
  unfold calculate_portfolio_metrics, get_statistics, get_self, bind, lift,
    ret, raise.
  intros ->. reflexivity.
Qed.

Lemma scorer_wrong_length {F : Type} `{Float64 F}
    (weights : list F) (w : world F) (n : nat) :
  statistics_shaped n (self w) = true ->
  length weights <> n ->
  calculate_portfolio_metrics weights w = (Raise ValueError, w).
Proof.
  unfold calculate_portfolio_metrics, get_statistics, get_self, bind, lift,
    ret, raise, statistics_shaped.
  intros shaped wrong.
  destruct (statistics (self w)) as [st|]; [|discriminate].
  apply andb_prop in shaped. destruct shaped as (shaped & _).
  apply andb_prop in shaped. destruct shaped as (Em & _).
  apply Nat.eqb_eq in Em. unfold array_mul, same_length. rewrite Em.
  destruct (Nat.eqb_spec n (length weights)) as [same|_];
    [now destruct wrong|reflexivity].
Qed.

(** X1.  The scorer raises [TypeError] on an instance whose statistics
    have not been fetched, and [ValueError] when the number of weights is
    not the size of the statistics; in both cases it leaves the
    interpreter as it was. *)
Theorem scorer_shape_errors {F : Type} `{Float64 F}
    (weights : list F) (w : world F) :
  (statistics (self w) = None ->
   calculate_portfolio_metrics weights w = (Raise TypeError, w))
  /\ (forall n : nat,
         statistics_shaped n (self w) = true ->
         length weights <> n ->
         calculate_portfolio_metrics weights w = (Raise ValueError, w)).
Proof.
  split.
  - apply scorer_without_statistics.
  - intros n. apply scorer_wrong_length.
Qed.

Lemma scorer_shape_errors_witness :
  calculate_portfolio_metrics [1%float] (before_fetch two_assets_b64)
  = (Raise TypeError, before_fetch two_assets_b64)
  /\ calculate_portfolio_metrics [1%float] two_assets_b64
     = (Raise ValueError, two_assets_b64).
Proof.
  split.
  - apply (proj1 (scorer_shape_errors [1%float]
                    (before_fetch two_assets_b64))).
    reflexivity.
  - apply (proj2 (scorer_shape_errors [1%float] two_assets_b64) 2%nat).
    + reflexivity.
    + discriminate.
Defined.

(** X2.  With no ticker the optimizer raises [ZeroDivisionError] on
    [1/len(self.tickers)], before the solver is asked anything.  With
    tickers, an exception of the solver is the exception of the optimizer,
    and a final iterate whose length is not the size of the statistics
    makes the optimizer raise [ValueError].  The interpreter is left as it
    was in each case. *)
Theorem optimizer_errors {F : Type} `{Float64 F}
    (minimize : Scipy.Solver F) (risk_free_rate : F) (w : world F) :
  (tickers (self w) = [] ->
   optimize_portfolio minimize risk_free_rate w = (Raise ZeroDivisionError, w))
  /\ (forall e : exn,
         (1 <= universe_size w)%nat ->
         minimize
           (specified_problem
              (fun weights => fst (calculate_portfolio_metrics weights w))
              (universe_size w))
         = Raise e ->
         optimize_portfolio minimize risk_free_rate w = (Raise e, w))
  /\ (forall (result : Scipy.OptimizeResult F) (n : nat),
         (1 <= universe_size w)%nat ->
         minimize
           (specified_problem
              (fun weights => fst (calculate_portfolio_metrics weights w))
              (universe_size w))
         = Ok result ->
         statistics_shaped n (self w) = true ->
         length (Scipy.x result) <> n ->
         optimize_portfolio minimize risk_free_rate w = (Raise ValueError, w)).
Proof.
  split; [|split].
  - intros empty. rewrite optimize_run. unfold universe_size.
    now rewrite empty.
  - intros e positive failed. rewrite optimize_run. unfold int_true_div.
    destruct (Z.eqb_spec (Z.of_nat (universe_size w)) 0) as [zero|_]; [lia|].
    change (sharpe_problem w _)
      with (specified_problem
              (fun weights => fst (calculate_portfolio_metrics weights w))
              (universe_size w)).
    now rewrite failed.
  - intros result n positive answer shaped wrong.
    rewrite optimize_run. unfold int_true_div.
    destruct (Z.eqb_spec (Z.of_nat (universe_size w)) 0) as [zero|_]; [lia|].
    change (sharpe_problem w _)
      with (specified_problem
              (fun weights => fst (calculate_portfolio_metrics weights w))
              (universe_size w)).
    rewrite answer.
    now rewrite (scorer_wrong_length (Scipy.x result) w n shaped wrong).
Qed.

Lemma optimizer_errors_witness :
  optimize_portfolio stalled_solver 0.02%float empty_universe_b64
  = (Raise ZeroDivisionError, empty_universe_b64)
  /\ optimize_portfolio failing_solver 0.02%float two_assets_b64
     = (Raise ValueError, two_assets_b64)
  /\ optimize_portfolio short_solver 0.02%float two_assets_b64
     = (Raise ValueError, two_assets_b64).
Proof.
  split; [|split].
  - apply (proj1 (optimizer_errors stalled_solver 0.02%float
                    empty_universe_b64)).
    reflexivity.
  - apply (proj1 (proj2 (optimizer_errors failing_solver 0.02%float
                           two_assets_b64)) ValueError).
    + unfold universe_size. simpl. lia.
    + reflexivity.
  - apply (proj2 (proj2 (optimizer_errors short_solver 0.02%float
                           two_assets_b64))
             {| Scipy.x := [1%float]; Scipy.success := true;
                Scipy.status := 0 |} 2%nat).
    + unfold universe_size. simpl. lia.
    + reflexivity.
    + reflexivity.
    + discriminate.
Defined.

(** ** More on the Monte Carlo loop *)

Section MonteCarloMore.
Context {F : Type} `{Float64 F}.

(** The loop appends to what it is given and looks at nothing of it. *)
Lemma simulation_loop_appends (n : nat) :
  forall (results : list (SimulationRow F)) (w : world F),
    simulation_loop n results w
    = match simulation_loop n [] w with
      | (Ok rows, w') => (Ok (results ++ rows), w')
      | (Raise e, w') => (Raise e, w')
      end.
Proof.
  induction n as [|n IH]; intros results w.
  - cbn. now rewrite app_nil_r.
  - rewrite !simulation_loop_step.
    destruct (generate_portfolio w) as [[portfolio|e] w1]; [|reflexivity].
    destruct (calculate_portfolio_metrics _ w1) as [[metrics|e] w2];
      [|reflexivity].
    rewrite (IH (results ++ _)), (IH ([] ++ _)).
    destruct (simulation_loop n [] w2) as [[rows|e] w3]; [|reflexivity].
    now rewrite <- app_assoc.
Qed.

Lemma simulation_loop_add (n m : nat) :
  forall (results : list (SimulationRow F)) (w : world F),
    simulation_loop (n + m) results w
    = match simulation_loop n results w with
      | (Ok results', w') => simulation_loop m results' w'
      | (Raise e, w') => (Raise e, w')
      end.
Proof.
  induction n as [|n IH]; intros results w; [reflexivity|].
  cbn [Nat.add]. rewrite !simulation_loop_step.
  destruct (generate_portfolio w) as [[portfolio|e] w1]; [|reflexivity].
  destruct (calculate_portfolio_metrics _ w1) as [[metrics|e] w2];
    [|reflexivity].
  apply IH.
Qed.

(** Where the generator stands after a loop that met no exception. *)
Lemma simulation_loop_draws (n : nat) :
  forall (results : list (SimulationRow F)) (w : world F),
    NoDup (tickers (self w)) ->
    statistics_shaped (universe_size w) (self w) = true ->
    forall i,
      np_random (snd (simulation_loop n results w)) i
      = np_random w (i + n * universe_size w).
Proof.
  induction n as [|n IH]; intros results w nodup shaped i.
  - cbn. f_equal. lia.
  - rewrite simulation_loop_step, sampler_run, scorer_run.
    destruct (dict_of_zip (tickers (self w))
                (map (fun wi =>
                        fdiv wi (np_sum (map (np_random w)
                                           (seq 0 (universe_size w)))))
                     (map (np_random w) (seq 0 (universe_size w)))) nodup)
      as (_ & Vs).
    { now rewrite !length_map, length_seq. }
    destruct (scorer_returns
                (values (dict_of (zip (tickers (self w))
                   (map (fun wi =>
                           fdiv wi (np_sum (map (np_random w)
                                              (seq 0 (universe_size w)))))
                        (map (np_random w) (seq 0 (universe_size w)))))))
                (after_draws (universe_size w) w)) as (r & vol & Sc).
    { rewrite Vs, !length_map, length_seq. exact shaped. }
    cbv zeta. rewrite Sc. rewrite IH.
    + unfold universe_size, after_draws. cbn [self np_random Nat.mul].
      f_equal. lia.
    + exact nodup.
    + exact shaped.
Qed.

End MonteCarloMore.

(** X3.  A run of [n + m] trials is a run of [n] trials followed, from
    the state the first run leaves, by a run of [m] trials: its rows are
    the rows of the first run and then the rows of the second, and it
    raises what the first of the two to raise raises. *)
Theorem monte_carlo_splits {F : Type} `{Float64 F}
    (n m : Z) (w : world F) :
  (0 <= n)%Z -> (0 <= m)%Z ->
  run_monte_carlo (n + m) w
  = match run_monte_carlo n w with
    | (Raise e, w') => (Raise e, w')
    | (Ok rows, w') =>
        match run_monte_carlo m w' with
        | (Raise e, w'') => (Raise e, w'')
        | (Ok rows', w'') => (Ok (rows ++ rows'), w'')
        end
    end.
Proof.
  intros Hn Hm. unfold run_monte_carlo.
  rewrite Z2Nat.inj_add by assumption.
  rewrite simulation_loop_add.
  destruct (simulation_loop (Z.to_nat n) [] w) as [[rows|e] w']; [|reflexivity].
  apply simulation_loop_appends.
Qed.

Lemma monte_carlo_splits_witness :
  run_monte_carlo (1 + 2) two_assets_b64
  = match run_monte_carlo 1 two_assets_b64 with
    | (Raise e, w') => (Raise e, w')
    | (Ok rows, w') =>
        match run_monte_carlo 2 w' with
        | (Raise e, w'') => (Raise e, w'')
        | (Ok rows', w'') => (Ok (rows ++ rows'), w'')
        end
    end.
Proof. apply (monte_carlo_splits 1 2 two_assets_b64); lia. Defined.

(** X4.  A Monte Carlo run that meets no exception (distinct tickers,
    statistics of the shape of the universe) takes exactly
    [num_simulations * N] doubles from the random generator: the generator
    goes on, after the run, with the double that stood at that place. *)
Theorem monte_carlo_draws {F : Type} `{Float64 F}
    (num_simulations : Z) (w : world F) :
  NoDup (tickers (self w)) ->
  statistics_shaped (universe_size w) (self w) = true ->
  forall i,
    np_random (snd (run_monte_carlo num_simulations w)) i
    = np_random w (i + Z.to_nat num_simulations * universe_size w).
Proof.
  intros nodup shaped i. unfold run_monte_carlo.
  now apply simulation_loop_draws.
Qed.

Lemma monte_carlo_draws_witness :
  np_random (snd (run_monte_carlo 3 two_assets_b64)) 0
  = np_random two_assets_b64
      (0 + Z.to_nat 3 * universe_size two_assets_b64)
  /\ np_random (snd (run_monte_carlo 3 two_assets_b64)) 7
     = np_random two_assets_b64
         (7 + Z.to_nat 3 * universe_size two_assets_b64).
Proof.
  split.
  - apply (monte_carlo_draws 3 two_assets_b64 two_tickers_distinct eq_refl 0).
  - apply (monte_carlo_draws 3 two_assets_b64 two_tickers_distinct eq_refl 7).
Defined.

(** X5.  On an instance whose statistics have not been fetched, a run of
    one trial or more raises [TypeError] in its first trial, and by then
    it has taken the [N] doubles of that trial from the generator; the
    instance itself is as it was. *)
Theorem monte_carlo_before_fetch {F : Type} `{Float64 F}
    (num_simulations : Z) (w : world F) :
  (0 < num_simulations)%Z ->
  statistics (self w) = None ->
  run_monte_carlo num_simulations w
  = (Raise TypeError, after_draws (universe_size w) w).
Proof.
  intros positive none. unfold run_monte_carlo.
  destruct (Z.to_nat num_simulations) as [|n] eqn:E; [lia|].
  rewrite simulation_loop_step, sampler_run.
  now rewrite scorer_without_statistics.
Qed.

Lemma monte_carlo_before_fetch_witness :
  run_monte_carlo 10000 (before_fetch two_assets_b64)
  = (Raise TypeError,
     after_draws (universe_size (before_fetch two_assets_b64))
                 (before_fetch two_assets_b64)).
Proof.
  apply (monte_carlo_before_fetch 10000 (before_fetch two_assets_b64)).
  - reflexivity.
  - reflexivity.
Defined.

(** ** The frame of prices *)

Section Download.
Context {F : Type} `{Float64 F}.

Lemma keys_setitem {V : Type} (d : dict V) (k : string) (v : V) :
  keys (setitem d k v) = if in_dec string_dec k (keys d) then keys d
                         else keys d ++ [k].
Proof.
  unfold keys. induction d as [|[k' v'] d IH]; [reflexivity|].
  cbn [setitem]. destruct (String.eqb_spec k' k) as [->|diff].
  - cbn [map fst].
    destruct (in_dec string_dec k (k :: map fst d)) as [_|out];
      [reflexivity|].
    exfalso. apply out. now left.
  - cbn [map fst]. rewrite IH.
    destruct (in_dec string_dec k (map fst d)) as [I|out];
      destruct (in_dec string_dec k (k' :: map fst d)) as [I'|out'];
      try reflexivity.
    + exfalso. apply out'. now right.
    + exfalso. destruct I' as [E|I']; [now apply diff|now apply out].
Qed.

Lemma values_setitem {V : Type} (d : dict V) (k : string) (v c : V) :
  In c (values (setitem d k v)) -> c = v \/ In c (values d).
Proof.
  induction d as [|[k' v'] d IH]; cbn [setitem values map snd].
  - intros [<-|[]]. now left.
  - destruct (String.eqb k' k); cbn [map snd].
    + intros [<-|I]; [now left|right; now right].
    + intros [<-|I]; [right; now left|].
      destruct (IH I) as [->|I']; [now left|right; now right].
Qed.

Lemma keys_distinct_setitem {V : Type} (d : dict V) (k : string) (v : V) :
  NoDup (keys d) -> NoDup (keys (setitem d k v)).
Proof.
  intros nodup. rewrite keys_setitem.
  destruct (in_dec string_dec k (keys d)) as [_|out]; [exact nodup|].
  apply NoDup_app; [exact nodup|repeat constructor; intros []|].
  intros x I [<-|[]]. now apply out.
Qed.

Lemma frame_setitem_aligned (data : DataFrame) (key : string)
    (value : Series) :
  aligned data -> aligned (frame_setitem data key value).
Proof.
  unfold aligned, frame_setitem. intros ok.
  apply Forall_forall. intros col I.
  destruct (index data) as [|t ts] eqn:Ei; [destruct value as [|p ps]|].
  - cbn [index columns] in *. rewrite Ei in *.
    apply values_setitem in I. destruct I as [->|I]; [reflexivity|].
    now apply (proj1 (Forall_forall _ _) ok).
  - cbn [index columns] in *.
    apply values_setitem in I. destruct I as [->|I].
    + now rewrite !length_map.
    + unfold values in I. rewrite map_map in I. cbn [snd] in I.
      apply in_map_iff in I. destruct I as (kc & <- & _).
      now rewrite repeat_length, length_map.
  - cbn [index columns] in *. rewrite Ei in *.
    apply values_setitem in I. destruct I as [->|I].
    + now rewrite !length_map.
    + now apply (proj1 (Forall_forall _ _) ok).
Qed.

Lemma frame_setitem_keys (data : DataFrame) (key : string) (value : Series) :
  keys (columns (frame_setitem data key value))
  = if in_dec string_dec key (keys (columns data))
    then keys (columns data) else keys (columns data) ++ [key].
Proof.
  unfold frame_setitem.
  destruct (index data) as [|t ts]; [destruct value as [|p ps]|];
    cbn [index columns]; rewrite keys_setitem; try reflexivity.
  unfold keys. rewrite map_map. cbn [fst]. reflexivity.
Qed.

Lemma download_from (history : string -> string -> string -> Series)
    (start_date end_date : string) (names : list string) :
  forall data : DataFrame,
    aligned data ->
    NoDup (keys (columns data)) ->
    let data' :=
      fold_left
        (fun data ticker =>
           frame_setitem data ticker (history ticker start_date end_date))
        names data in
    aligned data'
    /\ NoDup (keys (columns data'))
    /\ (forall k, In k (keys (columns data'))
                  <-> In k (keys (columns data)) \/ In k names)
    /\ (NoDup (keys (columns data) ++ names) ->
        keys (columns data') = keys (columns data) ++ names).
Proof.
  induction names as [|name names IH]; intros data ok nodup; cbn [fold_left].
  - cbv zeta. repeat split; try assumption.
    + now left.
    + intros [I|[]]. exact I.
    + now rewrite app_nil_r.
  - set (next := frame_setitem data name (history name start_date end_date)).
    assert (K := frame_setitem_keys data name
                   (history name start_date end_date)).
    fold next in K.
    destruct (IH next) as (ok' & nodup' & same & ordered).
    { now apply frame_setitem_aligned. }
    { unfold next, frame_setitem.
      destruct (index data) as [|t ts];
        [destruct (history name start_date end_date) as [|p ps]|];
        cbn [index columns]; apply keys_distinct_setitem; try exact nodup.
      unfold keys. rewrite map_map. cbn [fst]. exact nodup. }
    cbv zeta in *. repeat split; try assumption.
    + intros I. apply same in I. rewrite K in I.
      destruct (in_dec string_dec name (keys (columns data))) as [J|out].
      * destruct I as [I|I]; [now left|right; now right].
      * destruct I as [I|I]; [|right; now right].
        apply in_app_or in I. destruct I as [I|[<-|[]]];
          [now left|right; now left].
    + intros I. apply same. rewrite K.
      destruct (in_dec string_dec name (keys (columns data))) as [J|out].
      * destruct I as [I|[<-|I]]; [now left|now left|now right].
      * destruct I as [I|[<-|I]]; [left|left|now right];
          apply in_or_app; [now left|right; now left].
    + intros fresh. rewrite ordered.
      * rewrite K.
        destruct (in_dec string_dec name (keys (columns data))) as [J|out].
        -- exfalso. apply NoDup_remove_2 in fresh. apply fresh.
           apply in_or_app. now left.
        -- now rewrite <- app_assoc.
      * rewrite K.
        destruct (in_dec string_dec name (keys (columns data))) as [J|out].
        -- exfalso. apply NoDup_remove_2 in fresh. apply fresh.
           apply in_or_app. now left.
        -- now rewrite <- app_assoc.
Qed.

End Download.

(** X6.  The frame [fetch_data] fills, whatever the tickers and whatever
    the series downloaded: every column has one entry per row of the
    index, no label occurs twice, the labels are the tickers, and for
    distinct tickers they are the tickers in their order. *)
Theorem download_frame {F : Type} `{Float64 F}
    (history : string -> string -> string -> Series)
    (start_date end_date : string) (names : list string) :
  aligned (download history start_date end_date names)
  /\ NoDup (keys (columns (download history start_date end_date names)))
  /\ (forall k, In k (keys (columns (download history start_date end_date
                                       names)))
                <-> In k names)
  /\ (NoDup names ->
      keys (columns (download history start_date end_date names)) = names).
Proof.
  destruct (download_from history start_date end_date names empty_frame)
    as (ok & nodup & same & ordered).
  - constructor.
  - constructor.
  - cbv zeta in *. fold (download history start_date end_date names) in *.
    repeat split; try assumption.
    + intros I. apply same in I. destruct I as [[]|I]. exact I.
    + intros I. apply same. now right.
Qed.

Section Pipeline.
Context {F : Type} `{Float64 F}.

Lemma np_cov_shape (nrows : nat) (cols : list (list F)) :
  length (np_cov nrows cols) = length cols
  /\ forallb (fun row => Nat.eqb (length row) (length cols))
             (np_cov nrows cols) = true.
Proof.
  unfold np_cov. split.
  - now rewrite !length_map.
  - apply forallb_forall. intros row I.
    apply in_map_iff in I. destruct I as (cj & <- & _).
    rewrite !length_map. apply Nat.eqb_refl.
Qed.

(** After [fetch_data] the statistics have the shape of the frame. *)
Lemma fetched_shape (history : string -> string -> string -> Series)
    (start_date end_date : string) (w : world F) :
  statistics_shaped
    (length (columns (download history start_date end_date
                               (tickers (self w)))))
    (self (snd (fetch_data history start_date end_date w)))
  = true.
Proof.
  rewrite fetch_data_run. cbn [snd self]. cbv zeta.
  unfold statistics_shaped. cbn [statistics avg_returns cov_matrix].
  unfold frame_mean, frame_cov.
  destruct (np_cov_shape
              (length (pct_change_dropna
                         (download history start_date end_date
                                   (tickers (self w)))))
              (columns_of
                 (length (columns (download history start_date end_date
                                            (tickers (self w)))))
                 (pct_change_dropna
                    (download history start_date end_date
                              (tickers (self w))))))
    as (len & rows).
  assert (n : length (columns_of
                 (length (columns (download history start_date end_date
                                            (tickers (self w)))))
                 (pct_change_dropna
                    (download history start_date end_date
                              (tickers (self w)))))
              = length (columns (download history start_date end_date
                                          (tickers (self w)))))
    by (unfold columns_of; now rewrite length_map, length_seq).
  rewrite n in len, rows.
  rewrite length_map, n, len, Nat.eqb_refl, rows. reflexivity.
Qed.

Lemma fetched_shape_distinct
    (history : string -> string -> string -> Series)
    (start_date end_date : string) (w : world F) :
  NoDup (tickers (self w)) ->
  statistics_shaped (universe_size w)
    (self (snd (fetch_data history start_date end_date w)))
  = true.
Proof.
  intros nodup.
  pose proof (fetched_shape history start_date end_date w) as shaped.
  destruct (download_from history start_date end_date (tickers (self w))
              empty_frame) as (_ & _ & _ & ordered);
    [constructor|constructor|].
  cbv zeta in ordered. specialize (ordered nodup).
  fold (download history start_date end_date (tickers (self w))) in ordered.
  apply (f_equal (@length _)) in ordered.
  unfold keys in ordered. rewrite length_map in ordered.
  cbn [empty_frame columns map app] in ordered.
  unfold universe_size. now rewrite <- ordered.
Qed.

Lemma fetched_tickers (history : string -> string -> string -> Series)
    (start_date end_date : string) (w : world F) :
  tickers (self (snd (fetch_data history start_date end_date w)))
  = tickers (self w).
Proof. reflexivity. Qed.

(** With distinct tickers, statistics of the shape of the universe and
    a solver that answers in shape, the optimizer returns. *)
Lemma optimizer_returns (minimize : Scipy.Solver F) (risk_free_rate : F)
    (w : world F) :
  (1 <= universe_size w)%nat ->
  NoDup (tickers (self w)) ->
  statistics_shaped (universe_size w) (self w) = true ->
  answers_in_shape minimize ->
  exists portfolio,
    optimize_portfolio minimize risk_free_rate w = (Ok portfolio, w)
    /\ keys (opt_weights portfolio) = tickers (self w).
Proof.
  intros positive nodup shaped answers. rewrite optimize_run.
  unfold int_true_div.
  destruct (Z.eqb_spec (Z.of_nat (universe_size w)) 0) as [zero|_]; [lia|].
  destruct (answers (sharpe_problem w
                       (repeat (fdiv (of_int 1)
                                     (of_int (Z.of_nat (universe_size w))))
                               (universe_size w))))
    as (result & answer & len).
  rewrite answer. cbn [Scipy.x0 sharpe_problem] in len.
  rewrite repeat_length in len.
  destruct (scorer_returns (Scipy.x result) w) as (r & vol & Sc).
  { now rewrite len. }
  rewrite Sc. eexists. split; [reflexivity|].
  cbn [opt_weights]. now apply dict_of_zip.
Qed.

End Pipeline.

(** X7.  [fetch_data] changes the statistics and nothing else: tickers,
    portfolio size and the random generator are as before.  With distinct
    tickers the statistics it stores have the shape of the universe, one
    mean per ticker and a square covariance matrix of that size, whatever
    the series downloaded. *)
Theorem fetch_data_effect {F : Type} `{Float64 F}
    (history : string -> string -> string -> Series)
    (start_date end_date : string) (w : world F) :
  tickers (self (snd (fetch_data history start_date end_date w)))
  = tickers (self w)
  /\ portfolio_size (self (snd (fetch_data history start_date end_date w)))
     = portfolio_size (self w)
  /\ np_random (snd (fetch_data history start_date end_date w))
     = np_random w
  /\ (NoDup (tickers (self w)) ->
      statistics_shaped (universe_size w)
        (self (snd (fetch_data history start_date end_date w)))
      = true).
Proof.
  repeat split. apply fetched_shape_distinct.
Qed.

Lemma fetch_data_effect_witness :
  statistics_shaped (universe_size two_assets_b64)
    (self (snd (fetch_data two_days_b64 "2018-01-01" "2018-01-03"
                  two_assets_b64)))
  = true.
Proof.
  apply (proj2 (proj2 (proj2 (fetch_data_effect two_days_b64
                                "2018-01-01" "2018-01-03" two_assets_b64)))).
  exact two_tickers_distinct.
Defined.

(** X8.  After [fetch_data] on distinct tickers, whatever the series
    downloaded, even none at all, neither of the two computations raises:
    a Monte Carlo run of [n > 0] trials returns [n] rows, and with at
    least one ticker and a solver that answers with an iterate of the shape
    of the guess, the optimizer returns a portfolio with one weight per
    ticker. *)
Theorem fetched_pipeline_returns {F : Type} `{Float64 F}
    (history : string -> string -> string -> Series)
    (start_date end_date : string) (minimize : Scipy.Solver F)
    (risk_free_rate : F) (num_simulations : Z) (w : world F) :
  NoDup (tickers (self w)) ->
  (0 < num_simulations)%Z ->
  (exists rows,
      fst (run_monte_carlo num_simulations
             (snd (fetch_data history start_date end_date w)))
      = Ok rows
      /\ Z.of_nat (length rows) = num_simulations)
  /\ ((1 <= universe_size w)%nat ->
      answers_in_shape minimize ->
      exists portfolio,
        fst (optimize_portfolio minimize risk_free_rate
               (snd (fetch_data history start_date end_date w)))
        = Ok portfolio
        /\ keys (opt_weights portfolio) = tickers (self w)).
Proof.
  intros nodup positive.
  pose proof (fetched_shape_distinct history start_date end_date w nodup)
    as shaped.
  split.
  - destruct (simulation_loop_rows (Z.to_nat num_simulations) []
                (snd (fetch_data history start_date end_date w)))
      as (rows & Run & Len & _).
    + exact nodup.
    + exact shaped.
    + exists rows. split; [exact Run|]. rewrite Len. lia.
  - intros some answers.
    destruct (optimizer_returns minimize risk_free_rate
                (snd (fetch_data history start_date end_date w)))
      as (portfolio & Run & K); try assumption.
    exists portfolio. now rewrite Run.
Qed.

Lemma stalled_solver_answers : answers_in_shape stalled_solver.
Proof.
  intros problem. eexists. split; reflexivity.
Defined.

Lemma fetched_pipeline_returns_witness :
  (exists rows,
      fst (run_monte_carlo 5
             (snd (fetch_data two_days_b64 "2018-01-01" "2018-01-03"
                     two_assets_b64)))
      = Ok rows
      /\ Z.of_nat (length rows) = 5%Z)
  /\ (exists portfolio,
        fst (optimize_portfolio stalled_solver 0.02%float
               (snd (fetch_data two_days_b64 "2018-01-01" "2018-01-03"
                       two_assets_b64)))
        = Ok portfolio
        /\ keys (opt_weights portfolio) = tickers (self two_assets_b64)).
Proof.
  destruct (fetched_pipeline_returns two_days_b64 "2018-01-01" "2018-01-03"
              stalled_solver 0.02%float 5 two_assets_b64
              two_tickers_distinct eq_refl) as (simulated & optimized).
  split; [exact simulated|].
  apply optimized.
  - unfold universe_size. simpl. lia.
  - exact stalled_solver_answers.
Defined.

(** ** The script *)




(** ** Feasible points of the problem *)

Section Feasible.
Local Open Scope R_scope.

Lemma total_bounds_member (l : list R) (u : R) :
  Forall (fun v => 0 <= v) l -> In u l -> u <= total l.
Proof.
  induction 1 as [|v l Pv Pl IH]; intros I; [destruct I|].
  simpl. pose proof (total_nonneg l Pl) as T.
  destruct I as [->|I]; [lra|]. specialize (IH I). lra.
Qed.

Lemma total_repeat (c : R) (n : nat) : total (repeat c n) = INR n * c.
Proof.
  induction n as [|n IH]; [simpl; ring|].
  cbn [repeat]. unfold total in *. cbn [fold_right]. rewrite IH, S_INR. ring.
Qed.

End Feasible.

(** X10.  A sampled portfolio is a feasible point of the problem the
    optimizer poses: for distinct tickers and draws in [[0, 1)] that are
    not all 0, in exact arithmetic, every weight lies within the bounds 0
    and 1 and the constraint function [sum(x) - 1] is 0 on the weights. *)
Theorem sampled_portfolio_feasible (w : world xreal) (draws : list R) :
  NoDup (tickers (self w)) ->
  map (np_random w) (seq 0 (universe_size w)) = map Fin draws ->
  Forall (fun u => 0 <= u < 1)%R draws ->
  Exists (fun u => u <> 0%R) draws ->
  exists (portfolio : dict xreal) (weights : list R),
    fst (generate_portfolio w) = Ok portfolio
    /\ values portfolio = map Fin weights
    /\ Forall (fun x => 0 <= x <= 1)%R weights
    /\ Scipy.fun_ sum_to_one (values portfolio) = Fin 0.
Proof.
  intros nodup drawn range some.
  assert (nonneg : Forall (fun u => 0 <= u)%R draws).
  { apply (Forall_impl _ (P := fun u => (0 <= u < 1)%R)); [|exact range].
    intros u Hu. lra. }
  pose proof (total_positive draws nonneg some) as positive.
  destruct (sampler_exact w draws nodup drawn) as (portfolio & G & _ & Vs);
    [lra|].
  exists portfolio, (map (fun u => (u / total draws)%R) draws).
  split; [exact G|]. split; [exact Vs|]. split.
  - apply Forall_map, Forall_forall. intros u I.
    pose proof (total_bounds_member draws u nonneg I) as upper.
    pose proof (proj1 (Forall_forall _ _) nonneg u I) as lower.
    cbv beta in lower. split.
    + apply Rle_mult_inv_pos; assumption.
    + apply (Rmult_le_reg_r (total draws)); [exact positive|].
      unfold Rdiv. rewrite Rmult_assoc, Rinv_l by lra. lra.
  - rewrite Vs. apply sum_to_one_exact.
    rewrite total_scaled. field. lra.
Qed.

Lemma sampled_portfolio_feasible_witness :
  exists (portfolio : dict xreal) (weights : list R),
    fst (generate_portfolio two_assets) = Ok portfolio
    /\ values portfolio = map Fin weights
    /\ Forall (fun x => 0 <= x <= 1)%R weights
    /\ Scipy.fun_ sum_to_one (values portfolio) = Fin 0.
Proof.
  apply (sampled_portfolio_feasible two_assets [0.5; 0.5]%R).
  - exact two_tickers_distinct.
  - reflexivity.
  - repeat constructor; lra.
  - left. lra.
Defined.

(** X11.  The initial guess of the optimizer is a feasible point of its
    problem: with [N >= 1] tickers, in exact arithmetic, [1/len(tickers)]
    is the real [1/N], which lies within the bounds 0 and 1, and the
    constraint function [sum(x) - 1] is 0 on [N] copies of it. *)
Theorem initial_guess_feasible (n : nat) :
  (1 <= n)%nat ->
  int_true_div 1 (Z.of_nat n) = Ok (Fin (1 / INR n))
  /\ (0 <= 1 / INR n <= 1)%R
  /\ Scipy.fun_ sum_to_one (repeat (Fin (1 / INR n)) n) = Fin 0.
Proof.
  intros positive.
  assert (pos : (1 <= INR n)%R).
  { change 1%R with (INR 1). apply le_INR. exact positive. }
  split; [|split].
  - unfold int_true_div.
    destruct (Z.eqb_spec (Z.of_nat n) 0) as [zero|_]; [lia|].
    f_equal. now apply equal_weight_exact.
  - split.
    + apply Rle_mult_inv_pos; lra.
    + apply (Rmult_le_reg_r (INR n)); [lra|].
      unfold Rdiv. rewrite Rmult_assoc, Rinv_l by lra. lra.
  - rewrite <- (map_repeat _ _ Fin). apply sum_to_one_exact.
    rewrite total_repeat. field. lra.
Qed.

Lemma initial_guess_feasible_witness :
  int_true_div 1 (Z.of_nat 6) = Ok (Fin (1 / INR 6))
  /\ (0 <= 1 / INR 6 <= 1)%R
  /\ Scipy.fun_ sum_to_one (repeat (Fin (1 / INR 6)) 6) = Fin 0.
Proof. apply (initial_guess_feasible 6). lia. Defined.

(** ** The Sharpe ratio along a ray *)

Section Rays.
Local Open Scope R_scope.

Lemma dot_scaled_weights (k : R) (a b : list R) :
  Spec.dot (map (Rmult k) a) b = k * Spec.dot a b.
Proof.
  unfold Spec.dot.
  revert b; induction a as [|x a IH]; intros [|y b]; simpl; try lra.
  rewrite IH. lra.
Qed.

Lemma quadratic_form_scaled_weights (k : R) (w : list R)
    (C : list (list R)) :
  Spec.quadratic_form (map (Rmult k) w) C
  = k * k * Spec.quadratic_form w C.
Proof.
  unfold Spec.quadratic_form. rewrite dot_scaled_weights.
  assert (E : map (fun row => Spec.dot row (map (Rmult k) w)) C
              = map (fun c => k * c) (map (fun row => Spec.dot row w) C)).
  { rewrite map_map. apply map_ext. intros row.
    apply (dot_scaled_right k row w). }
  rewrite E, dot_scaled_right. ring.
Qed.

(** Quotients by a volatility and by its multiple. *)
Lemma xdiv_scaled (k a b : R) :
  0 < k -> xdiv (Fin (k * a)) (Fin (k * b)) = xdiv (Fin a) (Fin b).
Proof.
  intros positive. unfold xdiv.
  destruct (Req_dec_T b 0) as [zero|nonzero].
  - subst b. rewrite Rmult_0_r.
    destruct (Req_dec_T 0 0) as [_|absurd]; [|now destruct absurd].
    destruct (Req_dec_T a 0) as [za|nza].
    + subst a. rewrite Rmult_0_r.
      destruct (Req_dec_T 0 0) as [_|absurd]; [reflexivity|now destruct absurd].
    + destruct (Req_dec_T (k * a) 0) as [zka|_]; [exfalso; nra|].
      destruct (Rlt_dec 0 a) as [pa|npa];
        destruct (Rlt_dec 0 (k * a)) as [pka|npka];
        try reflexivity; exfalso; nra.
  - destruct (Req_dec_T (k * b) 0) as [zkb|_]; [exfalso; nra|].
    f_equal. field. split; lra.
Qed.

Lemma score_scaled (k : R) (w m : list R) (C : list (list R)) :
  0 < k ->
  Spec.score (map (Rmult k) w) m C
  = (xmul (Fin k) (fst (fst (Spec.score w m C))),
     xmul (Fin k) (snd (fst (Spec.score w m C))),
     snd (Spec.score w m C)).
Proof.
  intros positive. unfold Spec.score, Spec.periodsPerYear.
  cbn [fst snd].
  rewrite quadratic_form_scaled_weights, dot_scaled_right.
  set (d := Spec.dot m w). set (q := Spec.quadratic_form w C).
  replace (252 * (k * d)) with (k * (252 * d)) by ring.
  unfold xsqrt.
  assert (kk : 0 < k * k) by nra.
  destruct (Rlt_dec (252 * q) 0) as [neg|nonneg];
    destruct (Rlt_dec (252 * (k * k * q)) 0) as [neg'|nonneg'].
  - reflexivity.
  - exfalso. apply Rnot_lt_le in nonneg'. nra.
  - exfalso. apply Rnot_lt_le in nonneg. nra.
  - apply Rnot_lt_le in nonneg. assert (root : sqrt (252 * (k * k * q)) = k * sqrt (252 * q)).
    { replace (252 * (k * k * q)) with (k * k * (252 * q)) by ring.
      assert (0 <= k * k) by nra. assert (0 <= 252 * q) by lra.
      rewrite sqrt_mult by assumption.
      rewrite sqrt_square by lra. reflexivity. }
    rewrite root. cbn [xmul]. now rewrite xdiv_scaled.
Qed.

End Rays.

(** X12.  Scaling the weights by a positive factor leaves the Sharpe
    ratio the scorer returns unchanged, and multiplies the return and the
    volatility by the factor, in exact arithmetic: the objective of the
    optimizer is constant along every ray from the origin. *)
Theorem sharpe_ratio_scale_invariant names size returns rnd
    (k : R) (w m : list R) (C : list (list R)) :
  Spec.shaped (length w) m C ->
  (0 < k)%R ->
  exists r vol sharpe : xreal,
    fst (calculate_portfolio_metrics (map Fin w)
           (session names size returns m C rnd))
    = Ok (r, vol, sharpe)
    /\ fst (calculate_portfolio_metrics (map Fin (map (Rmult k) w))
              (session names size returns m C rnd))
       = Ok (xmul (Fin k) r, xmul (Fin k) vol, sharpe).
Proof.
  intros shaped positive.
  exists (fst (fst (Spec.score w m C))), (snd (fst (Spec.score w m C))),
    (snd (Spec.score w m C)).
  split.
  - rewrite scorer_exact by exact shaped. cbn [fst].
    now destruct (Spec.score w m C) as [[r vol] sharpe].
  - rewrite scorer_exact by now rewrite length_map.
    cbn [fst]. now rewrite score_scaled.
Qed.

Lemma sharpe_ratio_scale_invariant_witness :
  exists r vol sharpe : xreal,
    fst (calculate_portfolio_metrics (map Fin [0.5; 0.5]%R) two_assets)
    = Ok (r, vol, sharpe)
    /\ fst (calculate_portfolio_metrics
              (map Fin (map (Rmult 2) [0.5; 0.5]%R)) two_assets)
       = Ok (xmul (Fin 2) r, xmul (Fin 2) vol, sharpe).
Proof.
  apply (sharpe_ratio_scale_invariant _ _ _ _ 2%R [0.5; 0.5]%R).
  - repeat split; repeat constructor.
  - lra.
Defined.

(** ** Returns *)

Section Returns.
Local Open Scope R_scope.

Lemma ffill_finite (l : list R) (last : xreal) :
  ffill_from last (map Fin l) = map Fin l.
Proof.
  revert last; induction l as [|x l IH]; intros last; [reflexivity|].
  cbn [map ffill_from]. change (isnan (Fin x)) with false. cbv iota zeta.
  now rewrite IH.
Qed.

Lemma returns_from (prices : list R) :
  forall previous : R,
    previous <> 0 ->
    Forall (fun p => p <> 0) prices ->
    map (fun p => fsub (fdiv (fst p) (snd p)) (of_int 1))
        (zip (map Fin prices)
             (firstn (length (map Fin prices))
                     (map Fin (previous :: prices))))
    = map Fin (simple_returns previous prices).
Proof.
  induction prices as [|p prices IH]; intros previous nonzero rest;
    [reflexivity|].
  inversion rest as [|? ? Hp Hrest]; subst.
  cbn [map length firstn zip combine fst snd simple_returns].
  f_equal.
  - cbn [fsub fdiv of_int exact64]. rewrite xdiv_finite by exact nonzero.
    unfold xsub, xneg, xadd. f_equal. field. exact nonzero.
  - apply (IH p Hp Hrest).
Qed.

(** The head of [pct_change] is NaN, whatever the column. *)
Lemma pct_change_head (col : list xreal) :
  nth 0 (pct_change col) NaN = NaN.
Proof.
  destruct col as [|v col]; [reflexivity|].
  unfold pct_change, shift_one, zip.
  cbn [ffill_from length firstn combine map nth fst snd].
  cbn [fsub fdiv fnan exact64].
  destruct (if isnan v then NaN else v); reflexivity.
Qed.

Lemma filter_length_le {A : Type} (f : A -> bool) (l : list A) :
  (length (filter f l) <= length l)%nat.
Proof.
  induction l as [|x l IH]; simpl; [lia|]. destruct (f x); simpl; lia.
Qed.

End Returns.

(** X13.  On a column of finite prices, none of them 0, [pct_change]
    is the simple return of each price on the price before it,
    [(p[t] - p[t-1]) / p[t-1]], in exact arithmetic, behind a first entry
    that is NaN. *)
Theorem pct_change_simple_returns (first : R) (prices : list R) :
  first <> 0%R ->
  Forall (fun p => p <> 0%R) prices ->
  pct_change (map Fin (first :: prices))
  = NaN :: map Fin (simple_returns first prices).
Proof.
  intros nonzero rest. unfold pct_change. rewrite ffill_finite.
  unfold shift_one.
  cbn [map length firstn zip combine fst snd]. f_equal.
  apply (returns_from prices first nonzero rest).
Qed.

Lemma pct_change_simple_returns_witness :
  pct_change (map Fin [100; 110; 121]%R)
  = NaN :: map Fin (simple_returns 100 [110; 121]%R).
Proof.
  apply (pct_change_simple_returns 100 [110; 121]%R).
  - lra.
  - repeat constructor; lra.
Defined.

(** X14.  The first row never survives [pct_change().dropna()]: with at
    least one ticker, the returns [fetch_data] stores are fewer than the
    rows of the frame of prices, whatever these are; one day of prices, or
    none, leaves no observation. *)
Theorem observations_fewer_than_days
    (history : string -> string -> string -> Series)
    (start_date end_date : string) (w : world xreal) :
  tickers (self w) <> [] ->
  exists st : ReturnStatistics xreal,
    statistics (self (snd (fetch_data history start_date end_date w)))
    = Some st
    /\ (length (returns_data st)
        <= length (index (download history start_date end_date
                            (tickers (self w)))) - 1)%nat.
Proof.
  intros some. rewrite fetch_data_run. cbn [snd self statistics]. cbv zeta.
  eexists. split; [reflexivity|]. cbn [returns_data].
  set (data := download history start_date end_date (tickers (self w))).
  assert (cols : values (columns data) <> []).
  { destruct (tickers (self w)) as [|name names] eqn:E; [contradiction|].
    destruct (download_from history start_date end_date (name :: names)
                empty_frame) as (_ & _ & same & _);
      [constructor|constructor|].
    cbv zeta in same.
    fold (download history start_date end_date (name :: names)) in same.
    fold data in same.
    assert (I : In name (keys (columns data)))
      by (apply same; right; now left).
    unfold keys, values in *. destruct (columns data); [destruct I|].
    discriminate. }
  unfold pct_change_dropna, rows_of, dropna.
  destruct (length (index data)) as [|days]; [cbn; lia|].
  cbn [seq map filter].
  assert (first : existsb isnan
                    (row_at (map pct_change (values (columns data))) 0)
                  = true).
  { unfold row_at. destruct (values (columns data)) as [|col others];
      [contradiction|].
    cbn [map existsb]. change (@fnan xreal exact64) with NaN.
    rewrite pct_change_head. reflexivity. }
  rewrite first. cbn [negb].
  etransitivity; [apply filter_length_le|].
  rewrite length_map, length_seq. lia.
Qed.

Lemma observations_fewer_than_days_witness :
  exists st : ReturnStatistics xreal,
    statistics
      (self (snd (fetch_data three_days "2018-01-01" "2018-01-04" two_assets)))
    = Some st
    /\ (length (returns_data st)
        <= length (index (download three_days "2018-01-01" "2018-01-04"
                            (tickers (self two_assets)))) - 1)%nat.
Proof.
  apply (observations_fewer_than_days three_days "2018-01-01" "2018-01-04"
           two_assets).
  discriminate.
Defined.

(** ** The covariance matrix *)

Section Covariance.
Local Open Scope R_scope.

Lemma xmul_comm (a b : xreal) : xmul a b = xmul b a.
Proof.
  destruct a as [x| | |], b as [y| | |]; cbn [xmul]; try reflexivity.
  f_equal. ring.
Qed.

Lemma elementwise_mul_comm (a b : list xreal) :
  elementwise_mul a b = elementwise_mul b a.
Proof.
  unfold elementwise_mul, zip.
  revert b; induction a as [|x a IH]; intros [|y b]; cbn [combine map];
    try reflexivity.
  cbn [fst snd fmul exact64]. now rewrite xmul_comm, IH.
Qed.

(** An entry of a table built from a list and a function of two of its
    members. *)
Lemma table_entry {A : Type} (g : A -> A -> xreal) (l : list A) (d : A)
    (j k : nat) :
  entry (map (fun a => map (g a) l) l) j k
  = if (j <? length l)%nat && (k <? length l)%nat
    then g (nth j l d) (nth k l d) else NaN.
Proof.
  unfold entry.
  destruct (Nat.ltb_spec j (length l)) as [Hj|Hj].
  - rewrite (nth_indep _ [] (map (g d) l)) by now rewrite length_map.
    rewrite (map_nth (fun a => map (g a) l)).
    destruct (Nat.ltb_spec k (length l)) as [Hk|Hk]; cbn [andb].
    + rewrite (nth_indep _ NaN (g (nth j l d) d)) by now rewrite length_map.
      apply map_nth.
    + apply nth_overflow. now rewrite length_map.
  - cbn [andb]. rewrite (nth_overflow _ []) by now rewrite length_map.
    now destruct k.
Qed.

Lemma np_cov_symmetric (L : nat) (cols : list (list xreal)) (j k : nat) :
  entry (np_cov L cols) j k = entry (np_cov L cols) k j.
Proof.
  unfold np_cov. cbv zeta.
  rewrite !(table_entry _ _ []).
  rewrite andb_comm.
  destruct (_ && _); [|reflexivity].
  now rewrite elementwise_mul_comm.
Qed.

(** *** Positive semi-definiteness *)









End Covariance.

(** X15.  The covariance matrix [fetch_data] stores is symmetric, in
    exact arithmetic, whatever the series downloaded: entry [(j, k)] is
    entry [(k, j)], NaN and infinite entries included. *)
Theorem covariance_matrix_symmetric
    (history : string -> string -> string -> Series)
    (start_date end_date : string) (w : world xreal) (j k : nat) :
  exists st : ReturnStatistics xreal,
    statistics (self (snd (fetch_data history start_date end_date w)))
    = Some st
    /\ entry (cov_matrix st) j k = entry (cov_matrix st) k j.
Proof.
  rewrite fetch_data_run. cbn [snd self statistics]. cbv zeta.
  eexists. split; [reflexivity|]. cbn [cov_matrix].
  apply np_cov_symmetric.
Qed.

Section FetchedVolatility.
Local Open Scope R_scope.



End FetchedVolatility.



(** ** The dictionary of a portfolio *)

Lemma dict_of_keys {V : Type} (pairs : list (string * V)) :
  forall d : dict V,
    NoDup (keys d) ->
    NoDup (keys (fold_left (fun d kv => setitem d (fst kv) (snd kv)) pairs d))
    /\ forall k,
         In k (keys (fold_left (fun d kv => setitem d (fst kv) (snd kv))
                               pairs d))
         <-> In k (keys d) \/ In k (map fst pairs).
Proof.
  induction pairs as [|[k0 v0] pairs IH]; intros d nodup; cbn [fold_left].
  - split; [exact nodup|]. intros k. cbn [map In]. intuition.
  - destruct (IH (setitem d k0 v0)) as (nodup' & same).
    { now apply keys_distinct_setitem. }
    split; [exact nodup'|]. intros k. rewrite same, keys_setitem.
    cbn [map fst].
    destruct (in_dec string_dec k0 (keys d)) as [I|out].
    + split.
      * intros [J|J]; [now left|right; now right].
      * intros [J|[<-|J]]; [now left|now left|now right].
    + rewrite in_app_iff. cbn [In]. intuition.
Qed.

Lemma zip_keys {A B : Type} (names : list A) (vs : list B) :
  length vs = length names -> map fst (zip names vs) = names.
Proof.
  unfold zip. revert vs.
  induction names as [|k names IH]; intros [|v vs] E;
    simpl in *; try discriminate; [reflexivity|].
  f_equal. apply IH. congruence.
Qed.

(** X17.  The dictionary [generate_portfolio] returns never holds a
    ticker twice: its keys are the tickers, each once.  When a ticker is
    listed twice in the universe, the dictionary, and with it the weight
    list [run_monte_carlo] takes from it, has fewer entries than there
    are tickers. *)
Theorem sampled_portfolio_keys {F : Type} `{Float64 F} (w : world F) :
  exists portfolio : dict F,
    fst (generate_portfolio w) = Ok portfolio
    /\ NoDup (keys portfolio)
    /\ (forall k, In k (keys portfolio) <-> In k (tickers (self w)))
    /\ (~ NoDup (tickers (self w)) ->
        length (values portfolio) < universe_size w).
Proof.
  rewrite sampler_run. cbn [fst]. eexists. split; [reflexivity|].
  cbv zeta.
  set (weights := map _ (map (np_random w) (seq 0 (universe_size w)))).
  assert (len : length weights = length (tickers (self w)))
    by (unfold weights; now rewrite !length_map, length_seq).
  destruct (dict_of_keys (zip (tickers (self w)) weights) [])
    as (nodup & same); [constructor|].
  fold (dict_of (zip (tickers (self w)) weights)) in nodup, same.
  rewrite (zip_keys _ _ len) in same.
  assert (members : forall k,
             In k (keys (dict_of (zip (tickers (self w)) weights)))
             <-> In k (tickers (self w))).
  { intros k. rewrite same. cbn [keys map In]. intuition. }
  split; [exact nodup|]. split; [exact members|].
  intros twice. unfold values, universe_size. rewrite length_map.
  destruct (Nat.lt_ge_cases
              (length (dict_of (zip (tickers (self w)) weights)))
              (length (tickers (self w)))) as [less|more]; [exact less|].
  exfalso. apply twice.
  apply (NoDup_incl_NoDup nodup).
  - unfold keys. now rewrite length_map.
  - intros k I. now apply members.
Qed.

Lemma sampled_portfolio_keys_witness :
  exists portfolio : dict float,
    fst (generate_portfolio twice_listed_b64) = Ok portfolio
    /\ NoDup (keys portfolio)
    /\ length (values portfolio) < universe_size twice_listed_b64.
Proof.
  destruct (sampled_portfolio_keys twice_listed_b64)
    as (portfolio & G & nodup & _ & fewer).
  exists portfolio. split; [exact G|]. split; [exact nodup|].
  apply fewer. intros distinct.
  apply NoDup_cons_iff in distinct. apply (proj1 distinct). now left.
Defined.

(** The portfolio of that universe, evaluated in binary64: the weight
    drawn second replaces the first, and the one weight left is not 1. *)
Example twice_listed_binary64 :
  fst (generate_portfolio twice_listed_b64) = Ok [("SPY"%string, 0.75%float)].
Proof. vm_compute. reflexivity. Qed.

(** ** The portfolio size *)

Section PortfolioSize.
Context {F : Type} `{Float64 F}.

Lemma scorer_ignores_size (size : F) (weights : list F) (w : world F) :
  calculate_portfolio_metrics weights (with_portfolio_size size w)
  = (fst (calculate_portfolio_metrics weights w),
     with_portfolio_size size w).
Proof.
  unfold calculate_portfolio_metrics, get_statistics, get_self, bind, lift,
    ret, raise.
  cbn [with_portfolio_size self statistics].
  destruct (statistics (self w)) as [st|]; [|reflexivity].
  destruct (array_mul _ _); [|reflexivity].
  destruct (np_dot_matrix _ _); [|reflexivity].
  destruct (np_dot _ _); reflexivity.
Qed.

Lemma loop_ignores_size (size : F) (n : nat) :
  forall (results : list (SimulationRow F)) (w : world F),
    simulation_loop n results (with_portfolio_size size w)
    = (fst (simulation_loop n results w),
       with_portfolio_size size (snd (simulation_loop n results w))).
Proof.
  induction n as [|n IH]; intros results w; [reflexivity|].
  rewrite !simulation_loop_step, !sampler_run.
  change (after_draws (universe_size (with_portfolio_size size w))
                      (with_portfolio_size size w))
    with (with_portfolio_size size (after_draws (universe_size w) w)).
  change (universe_size (with_portfolio_size size w))
    with (universe_size w).
  change (tickers (self (with_portfolio_size size w)))
    with (tickers (self w)).
  change (np_random (with_portfolio_size size w)) with (np_random w).
  cbv zeta.
  rewrite scorer_ignores_size, (scorer_run _ (after_draws _ w)).
  destruct (fst (calculate_portfolio_metrics _ _)) as [metrics|e];
    [|reflexivity].
  apply IH.
Qed.

Lemma objective_ignores_size (size : F) (w : world F) :
  neg_sharpe_ratio (with_portfolio_size size w) = neg_sharpe_ratio w.
Proof.
  apply functional_extensionality. intros weights.
  unfold neg_sharpe_ratio. now rewrite scorer_ignores_size.
Qed.

End PortfolioSize.

(** X18.  The portfolio size has no influence on what the methods
    compute: on two instances that differ in [portfolio_size] only, the
    scorer, the sampler, a Monte Carlo run and the optimizer (which poses
    the same problem to the solver) return the same results. *)
Theorem portfolio_size_ignored {F : Type} `{Float64 F}
    (size : F) (w : world F) (weights : list F) (num_simulations : Z)
    (minimize : Scipy.Solver F) (risk_free_rate : F) :
  fst (calculate_portfolio_metrics weights (with_portfolio_size size w))
  = fst (calculate_portfolio_metrics weights w)
  /\ fst (generate_portfolio (with_portfolio_size size w))
     = fst (generate_portfolio w)
  /\ fst (run_monte_carlo num_simulations (with_portfolio_size size w))
     = fst (run_monte_carlo num_simulations w)
  /\ fst (optimize_portfolio minimize risk_free_rate
            (with_portfolio_size size w))
     = fst (optimize_portfolio minimize risk_free_rate w).
Proof.
  split; [|split; [|split]].
  - now rewrite scorer_ignores_size.
  - reflexivity.
  - unfold run_monte_carlo. now rewrite loop_ignores_size.
  - rewrite !optimize_run.
    change (universe_size (with_portfolio_size size w))
      with (universe_size w).
    destruct (int_true_div _ _) as [equal_weight|e]; [|reflexivity].
    unfold sharpe_problem.
    change (tickers (self (with_portfolio_size size w)))
      with (tickers (self w)).
    rewrite objective_ignores_size.
    destruct (minimize _) as [result|e]; [|reflexivity].
    rewrite scorer_ignores_size. cbn [fst].
    destruct (fst (calculate_portfolio_metrics _ w)) as [[[r vol] sharpe]|e];
      reflexivity.
Qed.

(** ** A trial whose draws are all 0 *)

Section NaNWeights.

Lemma elementwise_mul_nan (l : list xreal) (n : nat) :
  length l = n -> elementwise_mul l (repeat NaN n) = repeat NaN n.
Proof.
  intros <-. unfold elementwise_mul, zip.
  induction l as [|x l IH]; [reflexivity|].
  cbn [length repeat combine map fst snd]. rewrite IH. f_equal.
  cbn [fmul exact64]. now destruct x.
Qed.

Lemma elementwise_mul_nan_left (l : list xreal) (n : nat) :
  length l = n -> elementwise_mul (repeat NaN n) l = repeat NaN n.
Proof. rewrite elementwise_mul_comm. apply elementwise_mul_nan. Qed.

Lemma np_sum_nan (n : nat) : np_sum (repeat NaN (S n)) = NaN.
Proof.
  unfold np_sum. cbn [repeat fold_left fadd of_int exact64 xadd].
  induction n as [|n IH]; [reflexivity|]. exact IH.
Qed.

Lemma series_sum_nan (n : nat) : series_sum (repeat NaN n) = Fin 0.
Proof.
  unfold series_sum.
  assert (none : filter (fun v => negb (isnan v)) (repeat NaN n) = []).
  { induction n as [|n IH]; [reflexivity|]. exact IH. }
  rewrite none. reflexivity.
Qed.

(** The scorer on weights that are all NaN: [Series.sum] skips the NaN
    products, so the return is 0, while volatility and Sharpe ratio are
    NaN. *)
Lemma scorer_on_nan_weights (n : nat) (w : world xreal) :
  statistics_shaped (S n) (self w) = true ->
  calculate_portfolio_metrics (repeat NaN (S n)) w
  = (Ok (Fin 0, NaN, NaN), w).
Proof.
  unfold statistics_shaped. intros shaped.
  unfold calculate_portfolio_metrics, get_statistics, get_self, bind, lift,
    ret, raise.
  destruct (statistics (self w)) as [st|]; [|discriminate].
  apply andb_prop in shaped. destruct shaped as (shaped & rows).
  apply andb_prop in shaped. destruct shaped as (Em & EC).
  apply Nat.eqb_eq in Em. apply Nat.eqb_eq in EC.
  unfold array_mul, same_length. rewrite repeat_length, Em, Nat.eqb_refl.
  rewrite (elementwise_mul_nan _ _ Em), series_sum_nan.
  unfold np_dot_matrix, frame_mul.
  rewrite length_map, repeat_length, EC, Nat.eqb_refl. cbn [andb].
  assert (each : forall row,
             In row (map (map (fun c => fmul c (of_int 252))) (cov_matrix st)) ->
             length row = S n).
  { intros row' I. apply in_map_iff in I. destruct I as (row & <- & I).
    rewrite length_map. apply Nat.eqb_eq.
    now apply (proj1 (forallb_forall _ _) rows). }
  replace (forallb _ _) with true.
  2:{ symmetry. apply forallb_forall. intros row I.
      unfold same_length. rewrite repeat_length, (each row I).
      apply Nat.eqb_refl. }
  assert (inner : map (fun row => np_sum (elementwise_mul row (repeat NaN (S n))))
                      (map (map (fun c => fmul c (of_int 252))) (cov_matrix st))
                  = repeat NaN (S n)).
  { transitivity (map (fun _ : list xreal => NaN)
                      (map (map (fun c => fmul c (of_int 252)))
                           (cov_matrix st))).
    - apply map_ext_in. intros row I.
      rewrite (elementwise_mul_nan _ _ (each row I)). apply np_sum_nan.
    - now rewrite map_const, length_map, EC. }
  rewrite inner. unfold np_dot, same_length. rewrite Nat.eqb_refl.
  rewrite (elementwise_mul_nan _ _ (repeat_length NaN (S n))), np_sum_nan.
  cbn [fmul fsqrt fdiv of_int exact64 xmul xsqrt xdiv].
  repeat f_equal. apply Rmult_0_l.
Qed.

End NaNWeights.

(** X19.  A trial whose [N >= 1] draws are all exactly 0 does not stop
    the Monte Carlo run: in exact arithmetic its row holds [N] weights
    NaN, a return of 0 (the sum of the products skips the NaN entries), a
    volatility NaN and a Sharpe ratio NaN. *)
Theorem zero_draws_row (w : world xreal) (n : nat) :
  universe_size w = S n ->
  NoDup (tickers (self w)) ->
  statistics_shaped (S n) (self w) = true ->
  (forall i, (i < S n)%nat -> np_random w i = Fin 0) ->
  fst (run_monte_carlo 1 w)
  = Ok [ {| sim_return := Fin 0;
            sim_volatility := NaN;
            sim_sharpe_ratio := NaN;
            sim_weights := repeat NaN (S n) |} ].
Proof.
  intros size nodup shaped zeros.
  destruct (sampler_zero_draws w nodup) as (portfolio & G & _ & Vs).
  { now rewrite size. }
  rewrite size in Vs.
  unfold run_monte_carlo. change (Z.to_nat 1) with 1%nat.
  rewrite simulation_loop_step.
  rewrite (surjective_pairing (generate_portfolio w)), G, Vs.
  rewrite scorer_on_nan_weights; [reflexivity|].
  rewrite sampler_run. exact shaped.
Qed.

Lemma zero_draws_row_witness :
  fst (run_monte_carlo 1 flat_asset)
  = Ok [ {| sim_return := Fin 0;
            sim_volatility := NaN;
            sim_sharpe_ratio := NaN;
            sim_weights := repeat NaN 1 |} ].
Proof.
  apply (zero_draws_row flat_asset 0).
  - reflexivity.
  - repeat constructor. intros [].
  - reflexivity.
  - reflexivity.
Defined.

(** The same trial evaluated in binary64. *)
Example zero_draws_row_binary64 :
  fst (run_monte_carlo 1 flat_asset_b64)
  = Ok [ {| sim_return := 0%float;
            sim_volatility := nan;
            sim_sharpe_ratio := nan;
            sim_weights := [nan] |} ].
Proof. vm_compute. reflexivity. Qed.

(** ** The calendar of the frame *)

Section Calendar.
Context {F : Type} `{Float64 F}.

(** A series read at its own timestamps gives back its prices. *)
Lemma series_at_own (s : Series) :
  NoDup (map fst s) -> map (series_at s) (map fst s) = map snd s.
Proof.
  induction s as [|[t p] s IH]; intros nodup; [reflexivity|].
  cbn [map fst snd] in *. inversion nodup as [|? ? fresh rest]; subst.
  f_equal.
  - unfold series_at. cbn [find fst]. now rewrite Z.eqb_refl.
  - rewrite <- (IH rest). apply map_ext_in. intros t' I.
    unfold series_at. cbn [find fst].
    destruct (Z.eqb_spec t t') as [->|_]; [contradiction|reflexivity].
Qed.

(** Once the frame has an index and a first column, storing series
    under other labels changes neither. *)
Lemma download_keeps_first (history : string -> string -> string -> Series)
    (start_date end_date : string) (name : string) (col : list F)
    (names : list string) :
  forall (dates : list Z) (others : dict (list F)),
    dates <> [] ->
    ~ In name names ->
    exists others',
      fold_left
        (fun data ticker =>
           frame_setitem data ticker (history ticker start_date end_date))
        names {| index := dates; columns := (name, col) :: others |}
      = {| index := dates; columns := (name, col) :: others' |}.
Proof.
  induction names as [|k names IH]; intros dates others some fresh.
  - exists others. reflexivity.
  - cbn [fold_left].
    assert (step : frame_setitem
                     {| index := dates; columns := (name, col) :: others |}
                     k (history k start_date end_date)
                   = {| index := dates;
                        columns :=
                          (name, col)
                          :: setitem others k
                               (map (series_at (history k start_date end_date))
                                    dates) |}).
    { unfold frame_setitem. cbn [index columns].
      destruct dates as [|t dates]; [contradiction|].
      cbn [index columns setitem].
      destruct (String.eqb_spec name k) as [->|_]; [|reflexivity].
      exfalso. apply fresh. now left. }
    rewrite step. apply IH; [exact some|].
    intros I. apply fresh. now right.
Qed.

End Calendar.

(** X20.  The calendar of the frame is that of the first ticker: when
    the series of the first ticker has entries, at distinct timestamps,
    and the ticker is not listed again, the index of the frame
    [fetch_data] fills is the list of these timestamps, and the first
    column holds the prices of the series as they came, whatever the
    series of the other tickers. *)
Theorem first_ticker_sets_calendar {F : Type} `{Float64 F}
    (history : string -> string -> string -> Series)
    (start_date end_date : string) (name : string) (names : list string) :
  history name start_date end_date <> [] ->
  NoDup (map fst (history name start_date end_date)) ->
  ~ In name names ->
  exists others,
    download history start_date end_date (name :: names)
    = {| index := map fst (history name start_date end_date);
         columns :=
           (name, map snd (history name start_date end_date)) :: others |}.
Proof.
  intros some distinct fresh. unfold download. cbn [fold_left].
  assert (first : frame_setitem empty_frame name
                    (history name start_date end_date)
                  = {| index := map fst (history name start_date end_date);
                       columns :=
                         [(name, map snd (history name start_date end_date))]
                    |}).
  { unfold frame_setitem. cbn [empty_frame index columns].
    remember (history name start_date end_date) as value eqn:E.
    destruct value as [|p ps]; [contradiction|].
    cbn [index columns setitem].
    now rewrite (series_at_own _ distinct). }
  rewrite first.
  apply download_keeps_first; [|exact fresh].
  destruct (history name start_date end_date); [contradiction|discriminate].
Qed.

Lemma first_ticker_sets_calendar_witness :
  exists others,
    download two_days_b64 "2018-01-01" "2018-01-03" ["SPY"; "AGG"]%string
    = {| index := map fst (two_days_b64 "SPY" "2018-01-01" "2018-01-03");
         columns :=
           ("SPY"%string,
            map snd (two_days_b64 "SPY" "2018-01-01" "2018-01-03"))
           :: others |}.
Proof.
  apply (first_ticker_sets_calendar two_days_b64 "2018-01-01" "2018-01-03"
           "SPY" ["AGG"]%string).
  - discriminate.
  - repeat constructor; simpl; intuition discriminate.
  - simpl. intuition discriminate.
Defined.

(** X21.  The objective the optimizer hands to the solver, taken at the
    weights of a row of a Monte Carlo run, is the negated Sharpe ratio of
    that row: the simulation and the optimization score a portfolio
    alike. *)
Theorem objective_at_simulated_row {F : Type} `{Float64 F}
    (num_simulations : Z) (w : world F) (initial_weights : list F) :
  NoDup (tickers (self w)) ->
  statistics_shaped (universe_size w) (self w) = true ->
  exists rows,
    fst (run_monte_carlo num_simulations w) = Ok rows
    /\ forall row,
         In row rows ->
         Scipy.objective (sharpe_problem w initial_weights) (sim_weights row)
         = Ok (fneg (sim_sharpe_ratio row)).
Proof.
  intros nodup shaped. unfold run_monte_carlo.
  destruct (simulation_loop_rows (Z.to_nat num_simulations) [] w nodup shaped)
    as (rows & Run & Len & Each).
  exists rows. split; [exact Run|].
  intros row I. apply In_nth_error in I. destruct I as (i & Nth).
  destruct (Each i) as (row' & portfolio & Nth' & _ & Ws & Sc).
  { rewrite <- Len. apply nth_error_Some. now rewrite Nth. }
  rewrite Nth in Nth'. injection Nth' as <-.
  cbn [Scipy.objective sharpe_problem]. unfold neg_sharpe_ratio.
  now rewrite Ws, Sc.
Qed.

Lemma objective_at_simulated_row_witness :
  exists rows,
    fst (run_monte_carlo 3 two_assets_b64) = Ok rows
    /\ forall row,
         In row rows ->
         Scipy.objective (sharpe_problem two_assets_b64 [0.5; 0.5]%float)
                         (sim_weights row)
         = Ok (fneg (sim_sharpe_ratio row)).
Proof.
  apply (objective_at_simulated_row 3 two_assets_b64 [0.5; 0.5]%float).
  - exact two_tickers_distinct.
  - reflexivity.
Defined.
